(** * PanObject: generic REST resource entity (panapi/config/__init__.py)

    A shallow embedding of the [PanObject] base class and of its CRUD
    methods.  Python objects live in an explicit store, the methods are
    computations in a state-and-exception monad over that store, the session
    collaborator's state, the log of the HTTP calls issued and the standard
    output. *)

From stdpp Require Import gmap strings list fin_maps pretty.

Open Scope string_scope.
Set Warnings "-register-all".

(** ** Values *)

(** JSON-representable Python values: what [response.json()] produces and
    what the attributes of an entity hold.  A float is kept as its binary64
    bit pattern; no operation of the class computes with it.  Compound values
    are immutable trees here: only the top-level attribute dictionaries are
    store objects. *)
Inductive value : Type :=
  | VNone
  | VBool (b : bool)
  | VInt (z : Z)
  | VFloat (bits : Z)
  | VStr (s : string)
  | VList (l : list value)
  | VDict (d : gmap string value).

(** Python exceptions that the methods can let escape. *)
Inductive exn : Type :=
  | ValueError (msg : string)
  | AttributeError (attr : string)
  | KeyError (key : value)
  | IndexError
  | TypeError
  | JSONDecodeError.

Inductive result (A : Type) : Type :=
  | Ok (a : A)
  | Raise (e : exn).
Arguments Ok {A} a.
Arguments Raise {A} e.

(** ** Classes, HTTP messages, the session *)

(** A concrete resource subtype: the class attribute [_base_url] (inherited
    from [PanObject] unless overridden) and the [_endpoint] path that the
    subtype fixes.  The subclasses are not part of the source file, so the
    two constants are parameters.  Both are read on the class: an instance
    attribute of the same name is not modelled, and neither is a class
    attribute named [id], [name] or [folder], which [PanObject] does not
    define. *)
Record PanClass : Type := {
  _base_url : string;
  _endpoint : string
}.

Definition default_base_url : string := "https://api.sase.paloaltonetworks.com".

Inductive Verb : Type := GET | POST | PUT | DELETE.

(** One call of a verb method of the session: [headers] and [body] are
    [None] when the keyword argument is not passed. *)
Record Request : Type := {
  verb : Verb;
  url : string;
  headers : option (gmap string string);
  params : gmap string value;
  body : option (gmap string value)
}.

(** A response object: [status_code] and the outcome of [.json()]. *)
Record Response : Type := {
  status_code : Z;
  json : result value
}.

(** What a verb method does: it returns a response or raises an exception
    whose [str] is [err]. *)
Inductive outcome : Type :=
  | Responds (r : Response)
  | Fails (err : string).

(** Modelled from the spec: the session collaborator is not part of the
    source file.  It exposes a boolean [is_expired], an operation
    [reauthenticate()] that leaves the session valid, and a mutable
    [response] field; [reauthentications] counts the calls. *)
Record Session : Type := {
  is_expired : bool;
  reauthentications : nat;
  response : option Response
}.

Definition reauthenticate (s : Session) : Session :=
  {| is_expired := false;
     reauthentications := S (reauthentications s);
     response := response s |}.

Definition set_response (r : Response) (s : Session) : Session :=
  {| is_expired := is_expired s;
     reauthentications := reauthentications s;
     response := Some r |}.

(** ** The store *)

Definition loc : Type := nat.

(** A store object is an instance (its class and its [__dict__]) or a plain
    dictionary. *)
Inductive cell : Type :=
  | Instance (c : PanClass) (d : gmap string value)
  | DictObj (d : gmap string value).

Record World : Type := {
  heap : list cell;
  session : Session;
  issued : list Request;
  stdout : list string
}.

Definition with_heap (h : list cell) (w : World) : World :=
  {| heap := h; session := session w; issued := issued w; stdout := stdout w |}.

Definition with_session (s : Session) (w : World) : World :=
  {| heap := heap w; session := s; issued := issued w; stdout := stdout w |}.

Definition log_request (r : Request) (w : World) : World :=
  {| heap := heap w; session := session w;
     issued := issued w ++ [r]; stdout := stdout w |}.

Definition print (s : string) (w : World) : World :=
  {| heap := heap w; session := session w;
     issued := issued w; stdout := stdout w ++ [s] |}.

(** ** The monad of methods *)

(** A computation transforms the world and returns a value or raises; what
    it did before raising stays done. *)
Definition M (A : Type) : Type := World -> World * result A.

Definition ret {A} (a : A) : M A := fun w => (w, Ok a).

Definition raise {A} (e : exn) : M A := fun w => (w, Raise e).

Definition bind {A B} (m : M A) (k : A -> M B) : M B :=
  fun w =>
    match m w with
    | (w', Ok a) => k a w'
    | (w', Raise e) => (w', Raise e)
    end.

Notation "'let!' x ':=' m 'in' k" := (bind m (fun x => k))
  (at level 10, x pattern, m at level 100, k at level 200).
Notation "m ';;' k" := (bind m (fun _ => k))
  (at level 100, k at level 200, right associativity).

Definition lift {A} (r : result A) : M A := fun w => (w, r).

Fixpoint mapM {A B} (f : A -> M B) (l : list A) : M (list B) :=
  match l with
  | [] => ret []
  | x :: l' =>
      let! y := f x in
      let! ys := mapM f l' in
      ret (y :: ys)
  end.

(** Allocation of a new store object. *)
Definition alloc (c : cell) : M loc :=
  fun w => (with_heap (heap w ++ [c]) w, Ok (length (heap w))).

(** [self.__dict__] and [type(self)]. *)
Definition dict_of (self : loc) : M (gmap string value) :=
  fun w =>
    match heap w !! self with
    | Some (Instance _ d) => (w, Ok d)
    | Some (DictObj d) => (w, Ok d)
    | None => (w, Raise TypeError)
    end.

Definition type_of (self : loc) : M PanClass :=
  fun w =>
    match heap w !! self with
    | Some (Instance c _) => (w, Ok c)
    | _ => (w, Raise TypeError)
    end.

Definition hasattr (self : loc) (name : string) : M bool :=
  let! d := dict_of self in
  ret (bool_decide (is_Some (d !! name))).

Definition getattr (self : loc) (name : string) : M value :=
  let! d := dict_of self in
  match d !! name with
  | Some v => ret v
  | None => raise (AttributeError name)
  end.

Definition setattr (self : loc) (name : string) (v : value) : M unit :=
  fun w =>
    match heap w !! self with
    | Some (Instance c d) =>
        (with_heap (<[self := Instance c (<[name := v]> d)]> (heap w)) w, Ok tt)
    | _ => (w, Raise TypeError)
    end.

(** [d.update(kwargs)] on the [__dict__] of [self]. *)
Definition dict_update (self : loc) (kwargs : gmap string value) : M unit :=
  fun w =>
    match heap w !! self with
    | Some (Instance c d) =>
        (with_heap (<[self := Instance c (kwargs ∪ d)]> (heap w)) w, Ok tt)
    | _ => (w, Raise TypeError)
    end.

(** ** Built-in operations on values *)

(** A negative index counts from the end, as for Python sequences. *)
Definition seq_index {A} (l : list A) (i : Z) : result A :=
  let n := Z.of_nat (length l) in
  let j := if (i <? 0)%Z then (i + n)%Z else i in
  if (j <? 0)%Z then Raise IndexError
  else match l !! Z.to_nat j with
       | Some x => Ok x
       | None => Raise IndexError
       end.

Definition chars (s : string) : list value :=
  (fun a => VStr (String a EmptyString)) <$> String.list_ascii_of_string s.

(** [container[key]]. *)
Definition getitem (container key : value) : result value :=
  match container, key with
  | VDict d, VStr k =>
      match d !! k with
      | Some v => Ok v
      | None => Raise (KeyError key)
      end
  | VDict _, (VList _ | VDict _) => Raise TypeError
  | VDict _, _ => Raise (KeyError key)
  | VList l, VInt i => seq_index l i
  | VList l, VBool b => seq_index l (if b then 1 else 0)%Z
  | VStr s, VInt i => seq_index (chars s) i
  | VStr s, VBool b => seq_index (chars s) (if b then 1 else 0)%Z
  | _, _ => Raise TypeError
  end.

(** The elements that [for x in v] runs through.  Iterating a dictionary
    yields its keys. *)
Definition iterate (v : value) : result (list value) :=
  match v with
  | VList l => Ok l
  | VStr s => Ok (chars s)
  | VDict d => Ok ((fun kv => VStr kv.1) <$> map_to_list d)
  | _ => Raise TypeError
  end.

(** [config.get(key)]: only dictionaries have the method. *)
Definition dict_get (config : value) (key : string) : result value :=
  match config with
  | VDict d => Ok (default VNone (d !! key))
  | _ => Raise (AttributeError "get")
  end.

Inductive retval : Type :=
  | RNone
  | RObj (l : loc)
  | RList (ls : list loc).

(** ** The class *)

Section PanObject.

(** The HTTP layer behind the session's verb methods: given the calls
    issued so far and the call made now, it returns a response or raises. *)
Variable transport : list Request -> Request -> outcome.

(** [str()] of a float, a list or a dictionary: built into the language,
    not defined by the class. *)
Variable str_other : value -> string.

(** ["{}".format(v)], that is [str(v)]. *)
Definition format (v : value) : string :=
  match v with
  | VStr s => s
  | VNone => "None"
  | VBool true => "True"
  | VBool false => "False"
  | VInt z => pretty z
  | _ => str_other v
  end.

(** [if session.is_expired: session.reauthenticate()] *)
Definition refresh : M unit :=
  fun w =>
    if is_expired (session w)
    then (with_session (reauthenticate (session w)) w, Ok tt)
    else (w, Ok tt).

(** [try: session.response = session.<verb>(...)] with
    [except Exception as err: print(err)].  [Some r] continues into the
    [else] branch of the [try] statement, [None] falls out of it. *)
Definition try_send (req : Request) : M (option Response) :=
  fun w =>
    match transport (issued w) req with
    | Responds r =>
        (with_session (set_response r (session w)) (log_request req w),
         Ok (Some r))
    | Fails err => (print err (log_request req w), Ok None)
    end.

(** [{"folder": self.folder}] when the attribute exists, [{}] otherwise. *)
Definition folder_params (self : loc) : M (gmap string value) :=
  let! has_folder := hasattr self "folder" in
  if has_folder : bool
  then let! f := getattr self "folder" in ret {["folder" := f]}
  else ret ∅.

Definition json_headers : gmap string string :=
  {["Content-Type" := "application/json"]}.

(** [def __init__(self, **kwargs): self.__dict__.update(kwargs)] *)
Definition __init__ (self : loc) (kwargs : gmap string value) : M unit :=
  dict_update self kwargs.

(** The property [payload]: a new dictionary built by the comprehension
    over [self.__dict__.items()]. *)
Definition payload (self : loc) : M loc :=
  let! d := dict_of self in
  alloc (DictObj d).

(** A call of the class with its keyword arguments bound: a new instance
    with an empty [__dict__], then [__init__]. *)
Definition instantiate (c : PanClass) (kwargs : gmap string value) : M loc :=
  let! l := alloc (Instance c ∅) in
  __init__ l kwargs ;;
  ret l.

(** The call of [type(self)] on the unpacked mapping [v] (the double-star
    argument of [read] and [list]): [v] must be a mapping, and since the first
    parameter of [__init__] is the ordinary parameter [self], a key
    ["self"] collides with it. *)
Definition construct (c : PanClass) (v : value) : M loc :=
  match v with
  | VDict m =>
      match m !! "self" with
      | Some _ => raise TypeError
      | None => instantiate c m
      end
  | _ => raise TypeError
  end.

(** The methods.  [self._base_url] and [self._endpoint] are taken from the
    class, which is what the source reads when the instance has no
    attribute of either name; the statements that depend on the URL carry
    that as a hypothesis on the attributes. *)

Definition create (self : loc) : M retval :=
  refresh ;;
  let! c := type_of self in
  let url := _base_url c ++ _endpoint c in
  let headers := json_headers in
  let! params := folder_params self in
  let! p := payload self in
  let! js := dict_of p in
  let! r := try_send {| verb := POST; url := url; headers := Some headers;
                        params := params; body := Some js |} in
  match r with
  | None => ret RNone
  | Some resp =>
      if (status_code resp =? 201)%Z
      then
        let! config := lift (json resp) in
        let! i := lift (dict_get config "id") in
        setattr self "id" i ;;
        ret RNone
      else ret RNone
  end.

Definition read (self : loc) : M retval :=
  refresh ;;
  let! c := type_of self in
  let url := _base_url c ++ _endpoint c in
  let! params := folder_params self in
  let! has_id := hasattr self "id" in
  let! has_name := hasattr self "name" in
  let! target :=
    (if has_id : bool
     then
       let! i := getattr self "id" in
       ret (_base_url c ++ _endpoint c ++ "/" ++ format i, params)
     else if has_name : bool
     then
       let! n := getattr self "name" in
       ret (url, <["name" := n]> params)
     else raise (ValueError "name or id value is required")) in
  let! r := try_send {| verb := GET; url := target.1; headers := None;
                        params := target.2; body := None |} in
  match r with
  | None => ret RNone
  | Some resp =>
      if (status_code resp =? 200)%Z
      then
        let! result := lift (json resp) in
        if has_id
        then let! o := construct c result in ret (RObj o)
        else if has_name
        then
          let! data := lift (getitem result (VStr "data")) in
          let! config := lift (getitem data (VInt 0)) in
          let! o := construct c config in
          ret (RObj o)
        else ret RNone
      else ret RNone
  end.

Definition list_ (self : loc) : M retval :=
  refresh ;;
  let! c := type_of self in
  let url := _base_url c ++ _endpoint c in
  let! has_folder := hasattr self "folder" in
  let! params :=
    (if has_folder : bool
     then
       let! f := getattr self "folder" in
       ret (<["folder" := f]> {["limit" := VInt 5000]})
     else ret ∅) in
  let! r := try_send {| verb := GET; url := url; headers := None;
                        params := params; body := None |} in
  match r with
  | None => ret RNone
  | Some resp =>
      if (status_code resp =? 200)%Z
      then
        let! result := lift (json resp) in
        let! data := lift (getitem result (VStr "data")) in
        let! configs := lift (iterate data) in
        let! obj_list := mapM (construct c) configs in
        ret (RList obj_list)
      else ret RNone
  end.

Definition update (self : loc) : M retval :=
  refresh ;;
  let! c := type_of self in
  let! has_id := hasattr self "id" in
  let! url :=
    (if has_id : bool
     then
       let! i := getattr self "id" in
       ret (_base_url c ++ _endpoint c ++ "/" ++ format i)
     else ret (_base_url c ++ _endpoint c)) in
  let headers := json_headers in
  let! params := folder_params self in
  let! p := payload self in
  let! js := dict_of p in
  let! r := try_send {| verb := PUT; url := url; headers := Some headers;
                        params := params; body := Some js |} in
  match r with
  | None => ret RNone
  | Some resp =>
      if (status_code resp =? 200)%Z
      then lift (json resp) ;; ret RNone
      else ret RNone
  end.

(** [del self] at the end only unbinds the local name. *)
Definition delete (self : loc) : M retval :=
  refresh ;;
  let! c := type_of self in
  let! i := getattr self "id" in
  let url := _base_url c ++ _endpoint c ++ "/" ++ format i in
  let headers := json_headers in
  let! params := folder_params self in
  let! r := try_send {| verb := DELETE; url := url; headers := Some headers;
                        params := params; body := None |} in
  match r with
  | None => ret RNone
  | Some resp =>
      if (status_code resp =? 200)%Z
      then ret RNone
      else ret RNone
  end.

End PanObject.

(** ** Vocabulary of the statements *)

(** The world after the session check that opens every method. *)
Definition refreshed (w : World) : World :=
  if is_expired (session w)
  then with_session (reauthenticate (session w)) w
  else w.

(** The query parameters that scope a call to the entity's folder. *)
Definition folder_scope (d : gmap string value) : gmap string value :=
  match d !! "folder" with
  | Some f => {["folder" := f]}
  | None => ∅
  end.

(** The query parameters of [list]. *)
Definition list_scope (d : gmap string value) : gmap string value :=
  match d !! "folder" with
  | Some f => <["folder" := f]> {["limit" := VInt 5000]}
  | None => ∅
  end.

Definition collection_url (c : PanClass) : string :=
  _base_url c ++ _endpoint c.

Definition resource_url (c : PanClass) (ident : string) : string :=
  _base_url c ++ _endpoint c ++ "/" ++ ident.

(** The calls that the methods make on the session. *)
Definition create_call (c : PanClass) (d : gmap string value) : Request :=
  {| verb := POST; url := collection_url c; headers := Some json_headers;
     params := folder_scope d; body := Some d |}.

Definition read_by_id_call (c : PanClass) (d : gmap string value)
    (ident : string) : Request :=
  {| verb := GET; url := resource_url c ident; headers := None;
     params := folder_scope d; body := None |}.

Definition read_by_name_call (c : PanClass) (d : gmap string value)
    (n : value) : Request :=
  {| verb := GET; url := collection_url c; headers := None;
     params := <["name" := n]> (folder_scope d); body := None |}.

Definition list_call (c : PanClass) (d : gmap string value) : Request :=
  {| verb := GET; url := collection_url c; headers := None;
     params := list_scope d; body := None |}.

Definition update_call (c : PanClass) (d : gmap string value)
    (target : string) : Request :=
  {| verb := PUT; url := target; headers := Some json_headers;
     params := folder_scope d; body := Some d |}.

Definition delete_call (c : PanClass) (d : gmap string value)
    (ident : string) : Request :=
  {| verb := DELETE; url := resource_url c ident;
     headers := Some json_headers; params := folder_scope d; body := None |}.

(** The five methods, for statements that range over all of them. *)
Inductive method : Type := Create | Read | List | Update | Delete.

Definition call (transport : list Request -> Request -> outcome)
    (str_other : value -> string) (m : method) (self : loc) : M retval :=
  match m with
  | Create => create transport self
  | Read => read transport str_other self
  | List => list_ transport self
  | Update => update transport str_other self
  | Delete => delete transport str_other self
  end.

(** The verb that each method uses. *)
Definition verb_of (m : method) : Verb :=
  match m with
  | Create => POST
  | Read | List => GET
  | Update => PUT
  | Delete => DELETE
  end.

(** The call that a method makes on an entity of class [c] with the
    attributes [d], if it gets as far as making one. *)
Definition planned_call (str_other : value -> string) (m : method)
    (c : PanClass) (d : gmap string value) : option Request :=
  match m with
  | Create => Some (create_call c d)
  | Read =>
      match d !! "id" with
      | Some i => Some (read_by_id_call c d (format str_other i))
      | None =>
          match d !! "name" with
          | Some n => Some (read_by_name_call c d n)
          | None => None
          end
      end
  | List => Some (list_call c d)
  | Update =>
      Some (update_call c d
              match d !! "id" with
              | Some i => resource_url c (format str_other i)
              | None => collection_url c
              end)
  | Delete =>
      match d !! "id" with
      | Some i => Some (delete_call c d (format str_other i))
      | None => None
      end
  end.

(** The world once the call [req] has been made from [w] and answered or
    failed, with [h] as the store. *)
Definition settled (transport : list Request -> Request -> outcome)
    (req : Request) (h : list cell) (w : World) : World :=
  let w1 := log_request req (with_heap h (refreshed w)) in
  match transport (issued w) req with
  | Fails err => print err w1
  | Responds r => with_session (set_response r (session w1)) w1
  end.

(** A value that the constructor accepts as its unpacked keyword
    arguments: a JSON object without a key named self. *)
Definition unpackable (v : value) : Prop :=
  exists m, v = VDict m /\ m !! "self" = None.

(** The status code that a method compares the response's with. *)
Definition success_code (m : method) : Z :=
  match m with
  | Create => 201%Z
  | _ => 200%Z
  end.

(** ** Sample entities and sessions *)

Definition address_class : PanClass :=
  {| _base_url := default_base_url; _endpoint := "/sse/config/v1/addresses" |}.

Definition expired_session : Session :=
  {| is_expired := true; reauthentications := 0; response := None |}.

(** A world that holds one entity of [address_class], at location 0, with
    the attributes [d]. *)
Definition world_of (d : gmap string value) : World :=
  {| heap := [Instance address_class d]; session := expired_session;
     issued := []; stdout := [] |}.

Definition blank : gmap string value := ∅.

Definition named : gmap string value := {["name" := VStr "web"]}.

Definition scoped : gmap string value :=
  {["folder" := VStr "Shared"; "name" := VStr "web"]}.

Definition identified : gmap string value :=
  {["id" := VStr "x"; "name" := VStr "web"]}.

(** A transport that answers every call with the given status and body. *)
Definition answers (status : Z) (js : value) : list Request -> Request -> outcome :=
  fun _ _ => Responds {| status_code := status; json := Ok js |}.

(** A transport on which every call raises. *)
Definition unreachable : list Request -> Request -> outcome :=
  fun _ _ => Fails "connection refused".

Definition plain_str : value -> string := fun _ => "?".

(** ** Symbolic execution of the primitives *)

Section Properties.

Variable transport : list Request -> Request -> outcome.
Variable str_other : value -> string.

Lemma refresh_run w : refresh w = (refreshed w, Ok tt).
Proof. unfold refresh, refreshed. by destruct (is_expired (session w)). Qed.

Lemma heap_refreshed w : heap (refreshed w) = heap w.
Proof. unfold refreshed. by destruct (is_expired (session w)). Qed.

Lemma issued_refreshed w : issued (refreshed w) = issued w.
Proof. unfold refreshed. by destruct (is_expired (session w)). Qed.

Lemma stdout_refreshed w : stdout (refreshed w) = stdout w.
Proof. unfold refreshed. by destruct (is_expired (session w)). Qed.

Lemma response_refreshed w :
  response (session (refreshed w)) = response (session w).
Proof. unfold refreshed. by destruct (is_expired (session w)). Qed.

Lemma bind_run {A B} (m : M A) (k : A -> M B) w w' a :
  m w = (w', Ok a) -> bind m k w = k a w'.
Proof. unfold bind. by intros ->. Qed.

Lemma bind_assoc {A B C} (m : M A) (f : A -> M B) (k : B -> M C) w :
  bind (bind m f) k w = bind m (fun x => bind (f x) k) w.
Proof. unfold bind. destruct (m w) as [w' [a|e]]; done. Qed.

Lemma bind_ret {A B} (a : A) (k : A -> M B) w : bind (ret a) k w = k a w.
Proof. done. Qed.

Lemma bind_raise {A B} (m : M A) (k : A -> M B) w w' e :
  m w = (w', Raise e) -> bind m k w = (w', Raise e).
Proof. unfold bind. by intros ->. Qed.

Lemma type_of_run w self c d :
  heap w !! self = Some (Instance c d) -> type_of self w = (w, Ok c).
Proof. unfold type_of. by intros ->. Qed.

Lemma dict_of_run w self c d :
  heap w !! self = Some (Instance c d) -> dict_of self w = (w, Ok d).
Proof. unfold dict_of. by intros ->. Qed.

Lemma hasattr_run w self c d name :
  heap w !! self = Some (Instance c d) ->
  hasattr self name w = (w, Ok (bool_decide (is_Some (d !! name)))).
Proof. intros H. unfold hasattr. by rewrite (bind_run _ _ _ _ _ (dict_of_run _ _ _ _ H)). Qed.

Lemma getattr_run w self c d name v :
  heap w !! self = Some (Instance c d) -> d !! name = Some v ->
  getattr self name w = (w, Ok v).
Proof.
  intros H Hv. unfold getattr.
  rewrite (bind_run _ _ _ _ _ (dict_of_run _ _ _ _ H)). by rewrite Hv.
Qed.

Lemma getattr_missing w self c d name :
  heap w !! self = Some (Instance c d) -> d !! name = None ->
  getattr self name w = (w, Raise (AttributeError name)).
Proof.
  intros H Hv. unfold getattr.
  rewrite (bind_run _ _ _ _ _ (dict_of_run _ _ _ _ H)). by rewrite Hv.
Qed.

Lemma folder_params_run w self c d :
  heap w !! self = Some (Instance c d) ->
  folder_params self w = (w, Ok (folder_scope d)).
Proof.
  intros H. unfold folder_params, folder_scope.
  rewrite (bind_run _ _ _ _ _ (hasattr_run _ _ _ _ _ H)).
  destruct (d !! "folder") as [f|] eqn:Hf.
  - rewrite bool_decide_true by eauto.
    by rewrite (bind_run _ _ _ _ _ (getattr_run _ _ _ _ _ _ H Hf)).
  - rewrite bool_decide_false; [done | by intros [? ?]].
Qed.

Lemma payload_run w self c d :
  heap w !! self = Some (Instance c d) ->
  payload self w = (with_heap (heap w ++ [DictObj d]) w, Ok (length (heap w))).
Proof.
  intros H. unfold payload.
  by rewrite (bind_run _ _ _ _ _ (dict_of_run _ _ _ _ H)).
Qed.

Lemma setattr_run w self c d name v :
  heap w !! self = Some (Instance c d) ->
  setattr self name v w =
    (with_heap (<[self := Instance c (<[name := v]> d)]> (heap w)) w, Ok tt).
Proof. unfold setattr. by intros ->. Qed.

Lemma snapshot_run w l d :
  heap w !! l = Some (DictObj d) -> dict_of l w = (w, Ok d).
Proof. unfold dict_of. by intros ->. Qed.

Lemma bind_lift {A B} (r : result A) (k : A -> M B) w :
  bind (lift r) k w =
    match r with
    | Ok a => k a w
    | Raise e => (w, Raise e)
    end.
Proof. unfold bind, lift. by destruct r. Qed.

Lemma bind_try_send {B} req (k : option Response -> M B) w :
  bind (try_send transport req) k w =
    match transport (issued w) req with
    | Responds r =>
        k (Some r) (with_session (set_response r (session w)) (log_request req w))
    | Fails err => k None (print err (log_request req w))
    end.
Proof. unfold bind, try_send. by destruct (transport _ _). Qed.

Lemma lookup_new_cell (h : list cell) x : (h ++ [x])%list !! length h = Some x.
Proof. by rewrite list_lookup_middle. Qed.

Lemma lookup_old_cell (h : list cell) x l y :
  h !! l = Some y -> (h ++ [x])%list !! l = Some y.
Proof. apply lookup_app_l_Some. Qed.

Ltac heap_lookup :=
  rewrite ?heap_refreshed; cbn [heap with_heap with_session log_request print];
  rewrite ?heap_refreshed;
  first [ eassumption
        | apply lookup_old_cell; eassumption
        | apply lookup_new_cell ].

Ltac prim :=
  first [ apply refresh_run
        | eapply type_of_run; heap_lookup
        | eapply hasattr_run; heap_lookup
        | eapply folder_params_run; heap_lookup
        | eapply payload_run; heap_lookup
        | eapply getattr_run; [heap_lookup | eassumption]
        | eapply setattr_run; heap_lookup
        | eapply snapshot_run; heap_lookup
        | eapply dict_of_run; heap_lookup ].

Ltac step :=
  first [ rewrite bind_assoc
        | rewrite bind_ret
        | erewrite bind_run by prim ];
  cbv beta.

(** *** [create] *)

Lemma create_run w self c d :
  heap w !! self = Some (Instance c d) ->
  create transport self w =
    let req := {| verb := POST; url := collection_url c;
                  headers := Some json_headers;
                  params := folder_scope d; body := Some d |} in
    let w1 := log_request req
                (with_heap (heap w ++ [DictObj d]) (refreshed w)) in
    match transport (issued w) req with
    | Fails err => (print err w1, Ok RNone)
    | Responds r =>
        let w2 := with_session (set_response r (session w1)) w1 in
        if (status_code r =? 201)%Z
        then
          match json r with
          | Ok (VDict m) =>
              (with_heap
                 (<[self := Instance c (<["id" := default VNone (m !! "id")]> d)]>
                    (heap w2)) w2,
               Ok RNone)
          | Ok _ => (w2, Raise (AttributeError "get"))
          | Raise e => (w2, Raise e)
          end
        else (w2, Ok RNone)
    end.
Proof.
  intros H. cbv zeta. unfold create.
  repeat step.
  rewrite bind_try_send. unfold collection_url.
  cbn [issued with_heap]. rewrite issued_refreshed, !heap_refreshed.
  destruct (transport _ _) as [r|err]; [|done].
  destruct (status_code r =? 201)%Z; [|done].
  rewrite bind_lift. destruct (json r) as [config|e]; [|done].
  destruct config; rewrite bind_lift; try done.
  cbn [dict_get]. by step.
Qed.

(** *** Construction *)

Lemma instantiate_run c kwargs w :
  instantiate c kwargs w =
    (with_heap (heap w ++ [Instance c kwargs]) w, Ok (length (heap w))).
Proof.
  unfold instantiate, __init__, alloc, dict_update, bind, ret, with_heap.
  cbn [heap session issued stdout].
  rewrite lookup_new_cell.
  cbn [heap session issued stdout].
  replace (length (heap w)) with (length (heap w) + 0) at 1 by lia.
  rewrite insert_app_r. cbn [insert list_insert].
  by rewrite (right_id_L ∅ (∪)).
Qed.

Lemma construct_run c m w :
  m !! "self" = None ->
  construct c (VDict m) w =
    (with_heap (heap w ++ [Instance c m]) w, Ok (length (heap w))).
Proof. intros Hm. unfold construct. rewrite Hm. apply instantiate_run. Qed.

(** *** [read] *)

Lemma read_by_id_run w self c d i :
  heap w !! self = Some (Instance c d) ->
  d !! "id" = Some i ->
  read transport str_other self w =
    let req := {| verb := GET; url := resource_url c (format str_other i);
                  headers := None; params := folder_scope d;
                  body := None |} in
    let w1 := log_request req (refreshed w) in
    match transport (issued w) req with
    | Fails err => (print err w1, Ok RNone)
    | Responds r =>
        let w2 := with_session (set_response r (session w1)) w1 in
        if (status_code r =? 200)%Z
        then
          match json r with
          | Ok result => (let! o := construct c result in ret (RObj o)) w2
          | Raise e => (w2, Raise e)
          end
        else (w2, Ok RNone)
    end.
Proof.
  intros H Hid. cbv zeta. unfold read.
  repeat step.
  rewrite bool_decide_true by eauto. cbv iota.
  repeat step.
  rewrite bind_try_send. unfold resource_url.
  cbn [fst snd]. rewrite issued_refreshed.
  destruct (transport _ _) as [r|err]; [|done].
  destruct (status_code r =? 200)%Z; [|done].
  rewrite bind_lift. by destruct (json r).
Qed.

Lemma read_by_name_run w self c d n :
  heap w !! self = Some (Instance c d) ->
  d !! "id" = None ->
  d !! "name" = Some n ->
  read transport str_other self w =
    let req := {| verb := GET; url := collection_url c; headers := None;
                  params := <["name" := n]> (folder_scope d);
                  body := None |} in
    let w1 := log_request req (refreshed w) in
    match transport (issued w) req with
    | Fails err => (print err w1, Ok RNone)
    | Responds r =>
        let w2 := with_session (set_response r (session w1)) w1 in
        if (status_code r =? 200)%Z
        then
          match json r with
          | Ok result =>
              match getitem result (VStr "data") with
              | Ok data =>
                  match getitem data (VInt 0) with
                  | Ok config =>
                      (let! o := construct c config in ret (RObj o)) w2
                  | Raise e => (w2, Raise e)
                  end
              | Raise e => (w2, Raise e)
              end
          | Raise e => (w2, Raise e)
          end
        else (w2, Ok RNone)
    end.
Proof.
  intros H Hid Hname. cbv zeta. unfold read.
  repeat step.
  rewrite Hid, bool_decide_false by (by intros [? ?]).
  rewrite bool_decide_true by eauto. cbv iota.
  repeat step. rewrite bind_try_send. unfold collection_url.
  cbn [fst snd]. rewrite issued_refreshed.
  destruct (transport _ _) as [r|err]; [|done].
  destruct (status_code r =? 200)%Z; [|done].
  rewrite bind_lift. destruct (json r) as [result|e]; [|done].
  rewrite bind_lift. destruct (getitem result _) as [data|e]; [|done].
  rewrite bind_lift. by destruct (getitem data _).
Qed.

Lemma read_unidentified_run w self c d :
  heap w !! self = Some (Instance c d) ->
  d !! "id" = None ->
  d !! "name" = None ->
  read transport str_other self w =
    (refreshed w, Raise (ValueError "name or id value is required")).
Proof.
  intros H Hid Hname. unfold read.
  repeat step.
  rewrite Hid, Hname, bool_decide_false by (by intros [? ?]).
  done.
Qed.

(** *** [list] *)

Lemma list_run w self c d :
  heap w !! self = Some (Instance c d) ->
  list_ transport self w =
    let req := {| verb := GET; url := collection_url c; headers := None;
                  params := list_scope d; body := None |} in
    let w1 := log_request req (refreshed w) in
    match transport (issued w) req with
    | Fails err => (print err w1, Ok RNone)
    | Responds r =>
        let w2 := with_session (set_response r (session w1)) w1 in
        if (status_code r =? 200)%Z
        then
          match json r with
          | Ok result =>
              match getitem result (VStr "data") with
              | Ok data =>
                  match iterate data with
                  | Ok configs =>
                      (let! obj_list := mapM (construct c) configs in
                       ret (RList obj_list)) w2
                  | Raise e => (w2, Raise e)
                  end
              | Raise e => (w2, Raise e)
              end
          | Raise e => (w2, Raise e)
          end
        else (w2, Ok RNone)
    end.
Proof.
  intros H. cbv zeta. unfold list_, list_scope.
  repeat step.
  assert (Hparams :
    (if bool_decide (is_Some (d !! "folder"))
     then let! f := getattr self "folder" in
          ret (<["folder" := f]> ({["limit" := VInt 5000]} : gmap string value))
     else ret ∅) (refreshed w) =
    (refreshed w,
     Ok match d !! "folder" with
        | Some f => <["folder" := f]> {["limit" := VInt 5000]}
        | None => ∅
        end)).
  { destruct (d !! "folder") as [f|] eqn:Hf.
    - rewrite bool_decide_true by eauto. by step.
    - rewrite bool_decide_false; [done | by intros [? ?]]. }
  rewrite (bind_run _ _ _ _ _ Hparams). cbv beta.
  rewrite bind_try_send. unfold collection_url. rewrite issued_refreshed.
  destruct (transport _ _) as [r|err]; [|done].
  destruct (status_code r =? 200)%Z; [|done].
  rewrite bind_lift. destruct (json r) as [result|e]; [|done].
  rewrite bind_lift. destruct (getitem result _) as [data|e]; [|done].
  rewrite bind_lift. by destruct (iterate data).
Qed.

Lemma mapM_construct_run c (ms : list (gmap string value)) w :
  Forall (fun m => m !! "self" = None) ms ->
  mapM (construct c) (VDict <$> ms) w =
    (with_heap (heap w ++ (Instance c <$> ms)) w,
     Ok (seq (length (heap w)) (length ms))).
Proof.
  intros Hms. revert w. induction Hms as [|m ms Hm _ IH]; intros w.
  - cbn. unfold ret, with_heap. rewrite app_nil_r. by destruct w.
  - cbn [fmap list_fmap mapM].
    rewrite (bind_run _ _ _ _ _ (construct_run c m w Hm)).
    rewrite (bind_run _ _ _ _ _ (IH _)). unfold ret, with_heap.
    cbn [heap session issued stdout length seq].
    rewrite length_app, <- app_assoc. cbn [length app].
    by rewrite Nat.add_1_r.
Qed.

(** *** [update] and [delete] *)

Lemma update_run w self c d :
  heap w !! self = Some (Instance c d) ->
  update transport str_other self w =
    let req := {| verb := PUT;
                  url := match d !! "id" with
                         | Some i => resource_url c (format str_other i)
                         | None => collection_url c
                         end;
                  headers := Some json_headers;
                  params := folder_scope d; body := Some d |} in
    let w1 := log_request req
                (with_heap (heap w ++ [DictObj d]) (refreshed w)) in
    match transport (issued w) req with
    | Fails err => (print err w1, Ok RNone)
    | Responds r =>
        let w2 := with_session (set_response r (session w1)) w1 in
        if (status_code r =? 200)%Z
        then
          match json r with
          | Ok _ => (w2, Ok RNone)
          | Raise e => (w2, Raise e)
          end
        else (w2, Ok RNone)
    end.
Proof.
  intros H. cbv zeta. unfold update.
  repeat step.
  destruct (d !! "id") as [i|] eqn:Hid.
  - rewrite bool_decide_true by eauto. cbv iota.
    repeat step. rewrite bind_try_send. unfold resource_url.
    cbn [issued with_heap]. rewrite issued_refreshed, !heap_refreshed.
    destruct (transport _ _) as [r|err]; [|done].
    destruct (status_code r =? 200)%Z; [|done].
    rewrite bind_lift. by destruct (json r).
  - rewrite bool_decide_false by (by intros [? ?]). cbv iota.
    repeat step. rewrite bind_try_send. unfold collection_url.
    cbn [issued with_heap]. rewrite issued_refreshed, !heap_refreshed.
    destruct (transport _ _) as [r|err]; [|done].
    destruct (status_code r =? 200)%Z; [|done].
    rewrite bind_lift. by destruct (json r).
Qed.

Lemma delete_run w self c d i :
  heap w !! self = Some (Instance c d) ->
  d !! "id" = Some i ->
  delete transport str_other self w =
    let req := {| verb := DELETE; url := resource_url c (format str_other i);
                  headers := Some json_headers;
                  params := folder_scope d; body := None |} in
    let w1 := log_request req (refreshed w) in
    match transport (issued w) req with
    | Fails err => (print err w1, Ok RNone)
    | Responds r =>
        (with_session (set_response r (session w1)) w1, Ok RNone)
    end.
Proof.
  intros H Hid. cbv zeta. unfold delete.
  repeat step. rewrite bind_try_send. unfold resource_url.
  rewrite issued_refreshed.
  destruct (transport _ _) as [r|err]; [|done].
  by destruct (status_code r =? 200)%Z.
Qed.

Lemma delete_unidentified_run w self c d :
  heap w !! self = Some (Instance c d) ->
  d !! "id" = None ->
  delete transport str_other self w =
    (refreshed w, Raise (AttributeError "id")).
Proof.
  intros H Hid. unfold delete.
  repeat step.
  erewrite bind_raise; [done|].
  eapply getattr_missing; [|done]. by rewrite heap_refreshed.
Qed.

(** *** What construction leaves alone *)

Lemma world_bind_ret {A B} (m : M A) (f : A -> B) w :
  ((let! x := m in ret (f x)) w).1 = (m w).1.
Proof. unfold bind, ret. by destruct (m w) as [w' [a|e]]. Qed.

Lemma construct_issued c v w : issued (construct c v w).1 = issued w.
Proof.
  destruct v; try done. unfold construct.
  destruct (d !! "self"); [done|]. by rewrite instantiate_run.
Qed.

Lemma mapM_construct_issued c vs w :
  issued (mapM (construct c) vs w).1 = issued w.
Proof.
  revert w. induction vs as [|v vs IH]; intros w; [done|].
  cbn [mapM]. unfold bind at 1.
  destruct (construct c v w) as [w1 [o|e]] eqn:E.
  - rewrite world_bind_ret, IH.
    by rewrite <- (construct_issued c v w), E.
  - by rewrite <- (construct_issued c v w), E.
Qed.

(** *** The calls issued *)

Ltac world_fields :=
  cbn [fst issued heap session stdout with_heap with_session log_request
       print response set_response];
  rewrite ?issued_refreshed, ?heap_refreshed, ?stdout_refreshed,
    ?response_refreshed.

Lemma create_issued w self c d :
  heap w !! self = Some (Instance c d) ->
  issued (create transport self w).1 = (issued w ++ [create_call c d])%list.
Proof.
  intros H. rewrite (create_run _ _ _ _ H). cbv zeta.
  destruct (transport _ _) as [r|err];
    [destruct (status_code r =? 201)%Z; [destruct (json r) as [[]|]|]|];
    by world_fields.
Qed.

Lemma read_by_id_issued w self c d i :
  heap w !! self = Some (Instance c d) ->
  d !! "id" = Some i ->
  issued (read transport str_other self w).1 =
    (issued w ++ [read_by_id_call c d (format str_other i)])%list.
Proof.
  intros H Hid. rewrite (read_by_id_run _ _ _ _ _ H Hid). cbv zeta.
  destruct (transport _ _) as [r|err];
    [destruct (status_code r =? 200)%Z; [destruct (json r)|]|];
    rewrite ?world_bind_ret, ?construct_issued; by world_fields.
Qed.

Lemma read_by_name_issued w self c d n :
  heap w !! self = Some (Instance c d) ->
  d !! "id" = None ->
  d !! "name" = Some n ->
  issued (read transport str_other self w).1 =
    (issued w ++ [read_by_name_call c d n])%list.
Proof.
  intros H Hid Hn. rewrite (read_by_name_run _ _ _ _ _ H Hid Hn). cbv zeta.
  destruct (transport _ _) as [r|err];
    [destruct (status_code r =? 200)%Z;
       [destruct (json r) as [result|];
          [destruct (getitem result _) as [data|];
             [destruct (getitem data _)|]|]|]|];
    rewrite ?world_bind_ret, ?construct_issued; by world_fields.
Qed.

Lemma list_issued w self c d :
  heap w !! self = Some (Instance c d) ->
  issued (list_ transport self w).1 = (issued w ++ [list_call c d])%list.
Proof.
  intros H. rewrite (list_run _ _ _ _ H). cbv zeta.
  destruct (transport _ _) as [r|err];
    [destruct (status_code r =? 200)%Z;
       [destruct (json r) as [result|];
          [destruct (getitem result _) as [data|];
             [destruct (iterate data)|]|]|]|];
    rewrite ?world_bind_ret, ?mapM_construct_issued; by world_fields.
Qed.

Lemma update_issued w self c d :
  heap w !! self = Some (Instance c d) ->
  issued (update transport str_other self w).1 =
    (issued w ++
     [update_call c d
        match d !! "id" with
        | Some i => resource_url c (format str_other i)
        | None => collection_url c
        end])%list.
Proof.
  intros H. rewrite (update_run _ _ _ _ H). cbv zeta.
  destruct (transport _ _) as [r|err];
    [destruct (status_code r =? 200)%Z; [destruct (json r)|]|];
    by world_fields.
Qed.

Lemma delete_issued w self c d i :
  heap w !! self = Some (Instance c d) ->
  d !! "id" = Some i ->
  issued (delete transport str_other self w).1 =
    (issued w ++ [delete_call c d (format str_other i)])%list.
Proof.
  intros H Hid. rewrite (delete_run _ _ _ _ _ H Hid). cbv zeta.
  destruct (transport _ _) as [r|err]; by world_fields.
Qed.

(** ** Properties of the class *)

(** C1.  On an entity whose [folder] attribute is set, [create] and
    [update] each issue one call that carries [folder] as a query
    parameter, and the JSON body of that call is the whole attribute
    mapping, so it contains the key [folder] as well: the body is not
    filtered, against the documented contract of [payload]. *)
Theorem create_update_body_contains_folder w self c d F :
  heap w !! self = Some (Instance c d) ->
  d !! "folder" = Some F ->
  (exists req js,
      issued (create transport self w).1 = (issued w ++ [req])%list
      /\ verb req = POST
      /\ params req !! "folder" = Some F
      /\ body req = Some js /\ js = d /\ js !! "folder" = Some F)
  /\ (exists req js,
      issued (update transport str_other self w).1 = (issued w ++ [req])%list
      /\ verb req = PUT
      /\ params req !! "folder" = Some F
      /\ body req = Some js /\ js = d /\ js !! "folder" = Some F).
Proof.
  intros H HF. split.
  - eexists _, d. rewrite (create_run _ _ _ _ H). cbv zeta. split.
    + destruct (transport _ _) as [r|err];
        [destruct (status_code r =? 201)%Z;
           [destruct (json r) as [[]|]|]|];
        cbn [fst issued with_heap with_session log_request print];
        by rewrite issued_refreshed.
    + cbn [verb params body]. unfold folder_scope. rewrite HF.
      by rewrite lookup_singleton_eq.
  - eexists _, d. rewrite (update_run _ _ _ _ H). cbv zeta. split.
    + destruct (transport _ _) as [r|err];
        [destruct (status_code r =? 200)%Z; [destruct (json r)|]|];
        cbn [fst issued with_heap with_session log_request print];
        by rewrite issued_refreshed.
    + cbn [verb params body]. unfold folder_scope. rewrite HF.
      by rewrite lookup_singleton_eq.
Qed.


(** C3.  When the call made by [create] is answered with status 201 and
    a JSON object whose [id] field is [v] (such as the body with [id]
    equal to the string abc), the instance's [id] becomes [v] and its
    other attributes stay as they were.  When it is answered with any
    other status, the instance keeps exactly the attributes it had, so an
    unset [id] stays unset.  In both cases [create] returns nothing.
    Stated for an entity that has no attribute named [_base_url] or
    [_endpoint]: such an attribute would be read in place of the class
    constant. *)
Theorem create_sets_id_on_201_only w self c d r :
  heap w !! self = Some (Instance c d) ->
  d !! "_base_url" = None ->
  d !! "_endpoint" = None ->
  transport (issued w) (create_call c d) = Responds r ->
  (forall m v,
      status_code r = 201%Z -> json r = Ok (VDict m) -> m !! "id" = Some v ->
      (create transport self w).2 = Ok RNone
      /\ heap (create transport self w).1 !! self
         = Some (Instance c (<["id" := v]> d))
      /\ (<["id" := v]> d) !! "id" = Some v
      /\ forall k, k <> "id" -> (<["id" := v]> d) !! k = d !! k)
  /\ (status_code r <> 201%Z ->
      (create transport self w).2 = Ok RNone
      /\ heap (create transport self w).1 !! self = Some (Instance c d)
      /\ (d !! "id" = None ->
          getattr self "id" (create transport self w).1
          = ((create transport self w).1, Raise (AttributeError "id")))).
Proof.
  intros H _ _ Ht.
  pose proof (lookup_lt_Some _ _ _ H) as Hlt.
  rewrite (create_run _ _ _ _ H). cbv zeta.
  fold (collection_url c). change (transport (issued w) _)
    with (transport (issued w) (create_call c d)).
  rewrite Ht. split.
  - intros m v Hs Hj Hm. rewrite Hs, Hj, Hm. cbn [Z.eqb Pos.eqb default].
    repeat split.
    + world_fields. apply list_lookup_insert_eq.
      rewrite length_app. lia.
    + apply lookup_insert_eq.
    + intros k Hk. by apply lookup_insert_ne.
  - intros Hs. apply Z.eqb_neq in Hs. rewrite Hs.
    assert (Hkeep : heap (with_session
               (set_response r (session (log_request (create_call c d)
                  (with_heap (heap w ++ [DictObj d]) (refreshed w)))))
               (log_request (create_call c d)
                  (with_heap (heap w ++ [DictObj d]) (refreshed w)))) !! self
            = Some (Instance c d)).
    { world_fields. by apply lookup_old_cell. }
    repeat split; [done|].
    intros Hid. by apply (getattr_missing _ _ _ _ _ Hkeep).
Qed.

(** C4.  [read] on an entity whose [id] is set, whether or not [name] is
    set too, issues one GET on base + endpoint + "/" + str(id) (the id
    itself when it is a string) whose query parameters hold no [name];
    answered with status 200 and a JSON object, it returns one new
    instance of the same class whose attributes are that whole object.
    When [id] is unset and [name] is set, it issues one GET on
    base + endpoint with [name] among the query parameters (alone when no
    folder is set); answered with status 200 and an object whose [data]
    is a list that starts with an object, it returns one new instance of
    the same class whose attributes are that first element.  (An object
    with a key named self cannot be unpacked into the constructor.)
    Stated for an entity that has no attribute named [_base_url] or
    [_endpoint]: such an attribute would be read in place of the class
    constant. *)
Theorem read_targets_id_before_name w self c d :
  heap w !! self = Some (Instance c d) ->
  d !! "_base_url" = None ->
  d !! "_endpoint" = None ->
  (forall i,
      d !! "id" = Some i ->
      let req := read_by_id_call c d (format str_other i) in
      issued (read transport str_other self w).1 = (issued w ++ [req])%list
      /\ verb req = GET
      /\ url req = _base_url c ++ _endpoint c ++ "/" ++ format str_other i
      /\ (forall s, i = VStr s ->
            url req = _base_url c ++ _endpoint c ++ "/" ++ s)
      /\ params req !! "name" = None
      /\ forall r m,
           transport (issued w) req = Responds r ->
           status_code r = 200%Z -> json r = Ok (VDict m) ->
           m !! "self" = None ->
           exists o,
             (read transport str_other self w).2 = Ok (RObj o)
             /\ heap w !! o = None
             /\ heap (read transport str_other self w).1 !! o
                = Some (Instance c m))
  /\ (forall n,
      d !! "id" = None -> d !! "name" = Some n ->
      let req := read_by_name_call c d n in
      issued (read transport str_other self w).1 = (issued w ++ [req])%list
      /\ verb req = GET
      /\ url req = _base_url c ++ _endpoint c
      /\ params req !! "name" = Some n
      /\ (d !! "folder" = None -> params req = {["name" := n]})
      /\ forall r result m rest,
           transport (issued w) req = Responds r ->
           status_code r = 200%Z -> json r = Ok (VDict result) ->
           result !! "data" = Some (VList (VDict m :: rest)) ->
           m !! "self" = None ->
           exists o,
             (read transport str_other self w).2 = Ok (RObj o)
             /\ heap w !! o = None
             /\ heap (read transport str_other self w).1 !! o
                = Some (Instance c m)).
Proof.
  intros H _ _. split.
  - intros i Hid req. subst req.
    split; [by apply read_by_id_issued|].
    split; [done|]. split; [done|].
    split; [by intros s ->|].
    split.
    { cbn [params read_by_id_call]. unfold folder_scope.
      destruct (d !! "folder"); [by rewrite lookup_singleton_ne|done]. }
    intros r m Ht Hs Hj Hm.
    rewrite (read_by_id_run _ _ _ _ _ H Hid). cbv zeta.
    change (transport (issued w) _)
      with (transport (issued w) (read_by_id_call c d (format str_other i))).
    rewrite Ht, Hs, Hj. cbn [Z.eqb Pos.eqb].
    rewrite (bind_run _ _ _ _ _ (construct_run c m _ Hm)).
    eexists. split; [done|]. world_fields. split.
    + by apply lookup_ge_None_2.
    + apply lookup_new_cell.
  - intros n Hid Hn req. subst req.
    split; [by apply read_by_name_issued|].
    split; [done|]. split; [done|].
    split; [apply lookup_insert_eq|].
    split.
    { intros Hf. cbn [params read_by_name_call]. unfold folder_scope.
      by rewrite Hf. }
    intros r result m rest Ht Hs Hj Hdata Hm.
    rewrite (read_by_name_run _ _ _ _ _ H Hid Hn). cbv zeta.
    change (transport (issued w) _)
      with (transport (issued w) (read_by_name_call c d n)).
    rewrite Ht, Hs, Hj. cbn [Z.eqb Pos.eqb getitem]. rewrite Hdata.
    cbn [getitem].
    change (seq_index (VDict m :: rest) 0) with (Ok (VDict m)). cbv iota.
    rewrite (bind_run _ _ _ _ _ (construct_run c m _ Hm)).
    eexists. split; [done|]. world_fields. split.
    + by apply lookup_ge_None_2.
    + apply lookup_new_cell.
Qed.

(** C5.  [read] on an entity with neither [id] nor [name] raises the
    validation error [ValueError] without issuing any call: nothing is
    sent, stored or printed, and the store is untouched.  It is the only
    one of the three kinds of failure that reaches the caller: when an
    identifier is present and the call raises in the transport, or is
    answered with a status other than 200, [read] returns nothing and
    raises nothing.
    Stated for an entity that has no attribute named [_base_url] or
    [_endpoint]: such an attribute would be read in place of the class
    constant. *)
Theorem read_requires_identifier w self c d :
  heap w !! self = Some (Instance c d) ->
  d !! "_base_url" = None ->
  d !! "_endpoint" = None ->
  (d !! "id" = None -> d !! "name" = None ->
      (read transport str_other self w).2
      = Raise (ValueError "name or id value is required")
      /\ issued (read transport str_other self w).1 = issued w
      /\ heap (read transport str_other self w).1 = heap w
      /\ stdout (read transport str_other self w).1 = stdout w
      /\ response (session (read transport str_other self w).1)
         = response (session w))
  /\ (forall req,
      issued (read transport str_other self w).1 = (issued w ++ [req])%list ->
      (forall err,
          transport (issued w) req = Fails err ->
          (read transport str_other self w).2 = Ok RNone)
      /\ (forall r,
          transport (issued w) req = Responds r ->
          status_code r <> 200%Z ->
          (read transport str_other self w).2 = Ok RNone)).
Proof.
  intros H _ _. split.
  - intros Hid Hn. rewrite (read_unidentified_run _ _ _ _ H Hid Hn).
    by world_fields.
  - intros req Hreq.
    destruct (d !! "id") as [i|] eqn:Hid.
    + rewrite (read_by_id_issued _ _ _ _ _ H Hid) in Hreq.
      apply app_inv_head in Hreq. injection Hreq as <-.
      rewrite (read_by_id_run _ _ _ _ _ H Hid). cbv zeta.
      change (transport (issued w) _) with
        (transport (issued w) (read_by_id_call c d (format str_other i))).
      split.
      * by intros err ->.
      * intros r -> Hs. apply Z.eqb_neq in Hs. by rewrite Hs.
    + destruct (d !! "name") as [n|] eqn:Hn.
      * rewrite (read_by_name_issued _ _ _ _ _ H Hid Hn) in Hreq.
        apply app_inv_head in Hreq. injection Hreq as <-.
        rewrite (read_by_name_run _ _ _ _ _ H Hid Hn). cbv zeta.
        change (transport (issued w) _) with
          (transport (issued w) (read_by_name_call c d n)).
        split.
        -- by intros err ->.
        -- intros r -> Hs. apply Z.eqb_neq in Hs. by rewrite Hs.
      * rewrite (read_unidentified_run _ _ _ _ H Hid Hn) in Hreq.
        revert Hreq. world_fields. intros Hreq.
        apply (f_equal length) in Hreq. rewrite length_app in Hreq.
        cbn in Hreq. lia.
Qed.

(** C6.  [list] issues one GET on base + endpoint; its query parameters
    are [folder] and [limit] = 5000 when the entity's [folder] is set and
    are empty (no [limit]) when it is not.  Answered with status 200 and a
    body whose [data] is a list of objects, it returns a list as long as
    [data] whose i-th element is a new instance of the same class with
    the attributes [data[i]], in the order of the response; the instances
    are pairwise distinct.  (An object with a key named self cannot be
    unpacked into the constructor.)
    Stated for an entity that has no attribute named [_base_url] or
    [_endpoint]: such an attribute would be read in place of the class
    constant. *)
Theorem list_sends_limit_and_rebuilds_in_order w self c d :
  heap w !! self = Some (Instance c d) ->
  d !! "_base_url" = None ->
  d !! "_endpoint" = None ->
  let req := list_call c d in
  issued (list_ transport self w).1 = (issued w ++ [req])%list
  /\ verb req = GET
  /\ url req = _base_url c ++ _endpoint c
  /\ (forall F, d !! "folder" = Some F ->
        params req = {["folder" := F; "limit" := VInt 5000]})
  /\ (d !! "folder" = None -> params req = ∅)
  /\ forall r result (ms : list (gmap string value)),
       transport (issued w) req = Responds r ->
       status_code r = 200%Z -> json r = Ok result ->
       getitem result (VStr "data") = Ok (VList (VDict <$> ms)) ->
       Forall (fun m => m !! "self" = None) ms ->
       exists objs,
         (list_ transport self w).2 = Ok (RList objs)
         /\ length objs = length ms
         /\ NoDup objs
         /\ forall i m,
              ms !! i = Some m ->
              exists o,
                objs !! i = Some o
                /\ heap w !! o = None
                /\ heap (list_ transport self w).1 !! o
                   = Some (Instance c m).
Proof.
  intros H _ _ req. subst req.
  split; [by apply list_issued|].
  split; [done|]. split; [done|].
  split; [intros F HF; cbn [params list_call]; unfold list_scope;
          by rewrite HF|].
  split; [intros HF; cbn [params list_call]; unfold list_scope;
          by rewrite HF|].
  intros r result ms Ht Hs Hj Hdata Hms.
  rewrite (list_run _ _ _ _ H). cbv zeta.
  change (transport (issued w) _) with (transport (issued w) (list_call c d)).
  rewrite Ht, Hs, Hj, Hdata. cbn [Z.eqb Pos.eqb iterate].
  rewrite (bind_run _ _ _ _ _ (mapM_construct_run c ms _ Hms)).
  eexists. split; [done|]. world_fields.
  split; [by rewrite length_seq|].
  split; [apply NoDup_seq|].
  intros i m Hi. exists (length (heap w) + i).
  pose proof (lookup_lt_Some _ _ _ Hi) as Hlt.
  split; [by apply lookup_seq_lt|].
  split; [apply lookup_ge_None_2; lia|].
  unfold ret. world_fields.
  rewrite lookup_app_r by lia.
  replace (length (heap w) + i - length (heap w)) with i by lia.
  by rewrite list_lookup_fmap, Hi.
Qed.

(** C7.  [delete] on an entity without [id] stops before any call is
    issued, but what it raises is the [AttributeError] of the failed
    attribute access, not a validation error like the [ValueError] with
    which [read] rejects a missing identifier. *)
Theorem delete_without_id_raises_attribute_error w self c d :
  heap w !! self = Some (Instance c d) ->
  d !! "id" = None ->
  (delete transport str_other self w).2 = Raise (AttributeError "id")
  /\ (forall msg,
        (delete transport str_other self w).2 <> Raise (ValueError msg))
  /\ issued (delete transport str_other self w).1 = issued w
  /\ heap (delete transport str_other self w).1 = heap w
  /\ (d !! "name" = None ->
      (read transport str_other self w).2
      = Raise (ValueError "name or id value is required")).
Proof.
  intros H Hid. rewrite (delete_unidentified_run _ _ _ _ H Hid).
  repeat split; try by world_fields.
  intros Hn. by rewrite (read_unidentified_run _ _ _ _ H Hid Hn).
Qed.

(** C8.  For each of the five methods: when the call it issues raises in
    the transport, the exception is caught and its text printed, the
    method raises nothing and returns nothing, and the instance keeps its
    attributes; when the call is answered with a status other than the
    one the method tests for (201 for [create], 200 for the others, so
    in particular with any non-success status), the response is stored on
    the session, nothing is printed, raised or returned, and the instance
    keeps its attributes. *)
Theorem failures_are_swallowed (m : method) w self c d req :
  heap w !! self = Some (Instance c d) ->
  issued (call transport str_other m self w).1 = (issued w ++ [req])%list ->
  (forall err,
      transport (issued w) req = Fails err ->
      (call transport str_other m self w).2 = Ok RNone
      /\ heap (call transport str_other m self w).1 !! self
         = Some (Instance c d)
      /\ stdout (call transport str_other m self w).1
         = (stdout w ++ [err])%list)
  /\ (forall r,
      transport (issued w) req = Responds r ->
      status_code r <> success_code m ->
      (call transport str_other m self w).2 = Ok RNone
      /\ heap (call transport str_other m self w).1 !! self
         = Some (Instance c d)
      /\ stdout (call transport str_other m self w).1 = stdout w
      /\ response (session (call transport str_other m self w).1) = Some r).
Proof.
  intros H Hreq.
  assert (Hnone : forall l : list Request, l <> (l ++ [req])%list).
  { intros l Hl. apply (f_equal length) in Hl.
    rewrite length_app in Hl. cbn in Hl. lia. }
  pose proof (lookup_old_cell _ (DictObj d) _ _ H) as H'.
  destruct m; cbn [call success_code] in *.
  - rewrite (create_issued _ _ _ _ H) in Hreq.
    apply app_inv_head in Hreq. injection Hreq as <-.
    rewrite (create_run _ _ _ _ H). cbv zeta.
    change (transport (issued w) _) with (transport (issued w) (create_call c d)).
    split.
    + intros err ->. by world_fields.
    + intros r -> Hs. apply Z.eqb_neq in Hs. rewrite Hs. by world_fields.
  - destruct (d !! "id") as [i|] eqn:Hid; [|destruct (d !! "name") as [n|] eqn:Hn].
    + rewrite (read_by_id_issued _ _ _ _ _ H Hid) in Hreq.
      apply app_inv_head in Hreq. injection Hreq as <-.
      rewrite (read_by_id_run _ _ _ _ _ H Hid). cbv zeta.
      change (transport (issued w) _) with
        (transport (issued w) (read_by_id_call c d (format str_other i))).
      split.
      * intros err ->. by world_fields.
      * intros r -> Hs. apply Z.eqb_neq in Hs. rewrite Hs. by world_fields.
    + rewrite (read_by_name_issued _ _ _ _ _ H Hid Hn) in Hreq.
      apply app_inv_head in Hreq. injection Hreq as <-.
      rewrite (read_by_name_run _ _ _ _ _ H Hid Hn). cbv zeta.
      change (transport (issued w) _) with
        (transport (issued w) (read_by_name_call c d n)).
      split.
      * intros err ->. by world_fields.
      * intros r -> Hs. apply Z.eqb_neq in Hs. rewrite Hs. by world_fields.
    + rewrite (read_unidentified_run _ _ _ _ H Hid Hn) in Hreq.
      revert Hreq. world_fields. intros Hreq. by apply Hnone in Hreq.
  - rewrite (list_issued _ _ _ _ H) in Hreq.
    apply app_inv_head in Hreq. injection Hreq as <-.
    rewrite (list_run _ _ _ _ H). cbv zeta.
    change (transport (issued w) _) with (transport (issued w) (list_call c d)).
    split.
    + intros err ->. by world_fields.
    + intros r -> Hs. apply Z.eqb_neq in Hs. rewrite Hs. by world_fields.
  - rewrite (update_issued _ _ _ _ H) in Hreq.
    apply app_inv_head in Hreq. injection Hreq as <-.
    rewrite (update_run _ _ _ _ H). cbv zeta.
    change (transport (issued w) _) with
      (transport (issued w)
         (update_call c d
            match d !! "id" with
            | Some i => resource_url c (format str_other i)
            | None => collection_url c
            end)).
    split.
    + intros err ->. by world_fields.
    + intros r -> Hs. apply Z.eqb_neq in Hs. rewrite Hs. by world_fields.
  - destruct (d !! "id") as [i|] eqn:Hid.
    + rewrite (delete_issued _ _ _ _ _ H Hid) in Hreq.
      apply app_inv_head in Hreq. injection Hreq as <-.
      rewrite (delete_run _ _ _ _ _ H Hid). cbv zeta.
      change (transport (issued w) _) with
        (transport (issued w) (delete_call c d (format str_other i))).
      split.
      * intros err ->. by world_fields.
      * intros r -> Hs. by world_fields.
    + rewrite (delete_unidentified_run _ _ _ _ H Hid) in Hreq.
      revert Hreq. world_fields. intros Hreq. by apply Hnone in Hreq.
Qed.

(** C9.  Looking an entity up by [name] (no [id]): when the answer has
    status 200 and a JSON object whose [data] is the empty list, [read]
    raises [IndexError] from the unguarded [data[0]]; when the object has
    no [data] key, [read] raises [KeyError], and so does [list].
    Stated for an entity that has no attribute named [_base_url] or
    [_endpoint]: such an attribute would be read in place of the class
    constant. *)
Theorem read_list_unguarded_data_access w self c d :
  heap w !! self = Some (Instance c d) ->
  d !! "_base_url" = None ->
  d !! "_endpoint" = None ->
  (forall n r result,
      d !! "id" = None -> d !! "name" = Some n ->
      transport (issued w) (read_by_name_call c d n) = Responds r ->
      status_code r = 200%Z -> json r = Ok (VDict result) ->
      (result !! "data" = Some (VList []) ->
          (read transport str_other self w).2 = Raise IndexError)
      /\ (result !! "data" = None ->
          (read transport str_other self w).2
          = Raise (KeyError (VStr "data"))))
  /\ (forall r result,
      transport (issued w) (list_call c d) = Responds r ->
      status_code r = 200%Z -> json r = Ok (VDict result) ->
      result !! "data" = None ->
      (list_ transport self w).2 = Raise (KeyError (VStr "data"))).
Proof.
  intros H _ _. split.
  - intros n r result Hid Hn Ht Hs Hj.
    rewrite (read_by_name_run _ _ _ _ _ H Hid Hn). cbv zeta.
    change (transport (issued w) _) with
      (transport (issued w) (read_by_name_call c d n)).
    rewrite Ht, Hs, Hj. cbn [Z.eqb Pos.eqb getitem].
    split; by intros ->.
  - intros r result Ht Hs Hj Hdata.
    rewrite (list_run _ _ _ _ H). cbv zeta.
    change (transport (issued w) _) with (transport (issued w) (list_call c d)).
    rewrite Ht, Hs, Hj. cbn [Z.eqb Pos.eqb getitem]. by rewrite Hdata.
Qed.

(** C10.  When [create] is answered with status 201 and a JSON object
    without an [id] field, the instance's [id] is set to [None] rather
    than left unset, so [hasattr] finds it.  From then on [read],
    [update] and [delete] each issue their call on
    base + endpoint + "/None": [read] passes its identifier check and
    sends no [name] parameter even when the entity has a name, and
    [delete] does not stop on the attribute access.
    Stated for an entity that has no attribute named [_base_url] or
    [_endpoint]: such an attribute would be read in place of the class
    constant. *)
Theorem create_without_id_field_sets_none w self c d r m :
  heap w !! self = Some (Instance c d) ->
  d !! "_base_url" = None ->
  d !! "_endpoint" = None ->
  transport (issued w) (create_call c d) = Responds r ->
  status_code r = 201%Z ->
  json r = Ok (VDict m) ->
  m !! "id" = None ->
  let w' := (create transport self w).1 in
  heap w' !! self = Some (Instance c (<["id" := VNone]> d))
  /\ hasattr self "id" w' = (w', Ok true)
  /\ getattr self "id" w' = (w', Ok VNone)
  /\ (exists rq,
        issued (read transport str_other self w').1 = (issued w' ++ [rq])%list
        /\ verb rq = GET
        /\ url rq = _base_url c ++ _endpoint c ++ "/None"
        /\ params rq !! "name" = None)
  /\ (exists rq,
        issued (update transport str_other self w').1
        = (issued w' ++ [rq])%list
        /\ verb rq = PUT
        /\ url rq = _base_url c ++ _endpoint c ++ "/None")
  /\ (exists rq,
        issued (delete transport str_other self w').1
        = (issued w' ++ [rq])%list
        /\ verb rq = DELETE
        /\ url rq = _base_url c ++ _endpoint c ++ "/None").
Proof.
  intros H _ _ Ht Hs Hj Hm w'.
  pose proof (lookup_lt_Some _ _ _ H) as Hlt.
  assert (H' : heap w' !! self = Some (Instance c (<["id" := VNone]> d))).
  { subst w'. rewrite (create_run _ _ _ _ H). cbv zeta.
    change (transport (issued w) _) with (transport (issued w) (create_call c d)).
    rewrite Ht, Hs, Hj, Hm. cbn [Z.eqb Pos.eqb default]. world_fields.
    apply list_lookup_insert_eq. rewrite length_app. lia. }
  assert (Hid : (<["id" := VNone]> d) !! "id" = Some VNone)
    by apply lookup_insert_eq.
  split; [done|].
  split.
  { rewrite (hasattr_run _ _ _ _ _ H'), Hid. by rewrite bool_decide_true by eauto. }
  split; [by apply (getattr_run _ _ _ _ _ _ H')|].
  split; [|split].
  - eexists. split; [by apply (read_by_id_issued _ _ _ _ _ H' Hid)|].
    split; [done|]. split; [done|].
    cbn [params read_by_id_call]. unfold folder_scope.
    destruct (_ !! "folder"); [by rewrite lookup_singleton_ne|done].
  - eexists. split; [by apply (update_issued _ _ _ _ H')|].
    split; [done|]. cbn [url update_call]. by rewrite Hid.
  - eexists. split; [by apply (delete_issued _ _ _ _ _ H' Hid)|]. done.
Qed.

(** ** Further properties of the methods *)

(** *** Construction only extends the store *)

Lemma construct_extends c v w :
  exists ext, (construct c v w).1 = with_heap (heap w ++ ext) w.
Proof.
  assert (Hsame : w = with_heap (heap w ++ []) w).
  { unfold with_heap. rewrite app_nil_r. by destruct w. }
  destruct v; try (by exists []).
  unfold construct. destruct (d !! "self"); [by exists []|].
  rewrite instantiate_run. by eexists.
Qed.

Lemma mapM_construct_extends c vs w :
  exists ext, (mapM (construct c) vs w).1 = with_heap (heap w ++ ext) w.
Proof.
  revert w. induction vs as [|v vs IH]; intros w.
  - exists []. cbn. unfold with_heap. rewrite app_nil_r. by destruct w.
  - cbn [mapM]. unfold bind at 1.
    destruct (construct_extends c v w) as [e1 He1].
    destruct (construct c v w) as [w1 [o|e]]; cbn [fst] in He1; subst w1.
    + rewrite world_bind_ret.
      destruct (IH (with_heap (heap w ++ e1) w)) as [e2 ->].
      exists (e1 ++ e2)%list. unfold with_heap. cbn [heap session issued stdout].
      by rewrite app_assoc.
    + by exists e1.
Qed.

Lemma planned_call_issued m w self c d :
  heap w !! self = Some (Instance c d) ->
  issued (call transport str_other m self w).1 =
    (issued w ++ option_list (planned_call str_other m c d))%list.
Proof.
  intros H. destruct m; cbn [call planned_call].
  - by rewrite (create_issued _ _ _ _ H).
  - destruct (d !! "id") as [i|] eqn:Hid;
      [|destruct (d !! "name") as [n|] eqn:Hn].
    + by rewrite (read_by_id_issued _ _ _ _ _ H Hid).
    + by rewrite (read_by_name_issued _ _ _ _ _ H Hid Hn).
    + rewrite (read_unidentified_run _ _ _ _ H Hid Hn). world_fields.
      by rewrite app_nil_r.
  - by rewrite (list_issued _ _ _ _ H).
  - by rewrite (update_issued _ _ _ _ H).
  - destruct (d !! "id") as [i|] eqn:Hid.
    + by rewrite (delete_issued _ _ _ _ _ H Hid).
    + rewrite (delete_unidentified_run _ _ _ _ H Hid). world_fields.
      by rewrite app_nil_r.
Qed.

Lemma planned_call_of_issued m w self c d req :
  heap w !! self = Some (Instance c d) ->
  issued (call transport str_other m self w).1 = (issued w ++ [req])%list ->
  planned_call str_other m c d = Some req.
Proof.
  intros H Hreq. rewrite (planned_call_issued _ _ _ _ _ H) in Hreq.
  apply app_inv_head in Hreq.
  destruct (planned_call _ _ _ _); cbn in Hreq; congruence.
Qed.

(** *** The world that a method leaves *)

Lemma reinsert (h ext : list cell) self x :
  h !! self = Some x -> (h ++ ext)%list = <[self := x]> (h ++ ext)%list.
Proof.
  intros H. symmetry. apply list_insert_id. by apply lookup_app_l_Some.
Qed.

Lemma settled_unchanged req w h self x ext :
  heap w !! self = Some x ->
  h = (heap w ++ ext)%list ->
  settled transport req h w
  = settled transport req (<[self := x]> (heap w ++ ext)%list) w.
Proof. intros H ->. by rewrite <- (reinsert _ _ _ _ H). Qed.

Lemma settled_construct c v req w r :
  transport (issued w) req = Responds r ->
  exists ext,
    (construct c v
       (with_session (set_response r (session (log_request req (refreshed w))))
          (log_request req (refreshed w)))).1
    = settled transport req (heap w ++ ext)%list w.
Proof.
  intros Ht. destruct (construct_extends c v
    (with_session (set_response r (session (log_request req (refreshed w))))
       (log_request req (refreshed w)))) as [ext ->].
  exists ext. unfold settled. rewrite Ht. unfold with_heap, with_session,
    log_request. cbn [heap session issued stdout]. by rewrite heap_refreshed.
Qed.

Lemma settled_mapM_construct c vs req w r :
  transport (issued w) req = Responds r ->
  exists ext,
    (mapM (construct c) vs
       (with_session (set_response r (session (log_request req (refreshed w))))
          (log_request req (refreshed w)))).1
    = settled transport req (heap w ++ ext)%list w.
Proof.
  intros Ht. destruct (mapM_construct_extends c vs
    (with_session (set_response r (session (log_request req (refreshed w))))
       (log_request req (refreshed w)))) as [ext ->].
  exists ext. unfold settled. rewrite Ht. unfold with_heap, with_session,
    log_request. cbn [heap session issued stdout]. by rewrite heap_refreshed.
Qed.

Lemma settled_plain req w :
  settled transport req (heap w ++ [])%list w =
    match transport (issued w) req with
    | Fails err => print err (log_request req (refreshed w))
    | Responds r =>
        with_session (set_response r (session (log_request req (refreshed w))))
          (log_request req (refreshed w))
    end.
Proof.
  unfold settled. rewrite app_nil_r.
  assert (Hw : with_heap (heap w) (refreshed w) = refreshed w).
  { unfold with_heap. rewrite <- heap_refreshed. by destruct (refreshed w). }
  by rewrite Hw.
Qed.

Lemma call_world m w self c d :
  heap w !! self = Some (Instance c d) ->
  exists ext d',
    (d' = d \/ (m = Create /\ exists v, d' = <["id" := v]> d))
    /\ (call transport str_other m self w).1 =
         match planned_call str_other m c d with
         | None => refreshed w
         | Some req =>
             settled transport req (<[self := Instance c d']> (heap w ++ ext)%list) w
         end.
Proof.
  intros H.
  assert (Hkeep : forall req ext W,
    W = settled transport req (heap w ++ ext)%list w ->
    exists ext' d',
      (d' = d \/ (m = Create /\ exists v, d' = <["id" := v]> d))
      /\ W = settled transport req (<[self := Instance c d']> (heap w ++ ext')%list) w).
  { intros req ext W ->. exists ext, d. split; [by left|].
    by apply settled_unchanged. }
  destruct m; cbn [call planned_call].
  - rewrite (create_run _ _ _ _ H). cbv zeta.
    change (transport (issued w) _) with (transport (issued w) (create_call c d)).
    destruct (transport (issued w) (create_call c d)) as [r|err] eqn:Ht.
    + destruct (status_code r =? 201)%Z;
        [destruct (json r) as [[| | | | | |m]|e]|];
        try (apply (Hkeep _ [DictObj d]); unfold settled; by rewrite Ht).
      exists [DictObj d], (<["id" := default VNone (m !! "id")]> d).
      split; [right; eauto|]. unfold settled. by rewrite Ht.
    + apply (Hkeep _ [DictObj d]). unfold settled. by rewrite Ht.
  - destruct (d !! "id") as [i|] eqn:Hid;
      [|destruct (d !! "name") as [n|] eqn:Hn].
    + rewrite (read_by_id_run _ _ _ _ _ H Hid). cbv zeta.
      change (transport (issued w) _) with
        (transport (issued w) (read_by_id_call c d (format str_other i))).
      destruct (transport (issued w) _) as [r|err] eqn:Ht.
      * destruct (status_code r =? 200)%Z;
          [destruct (json r) as [v|e]|];
          try (apply (Hkeep _ []); rewrite settled_plain; by rewrite Ht).
        rewrite world_bind_ret.
        destruct (settled_construct c v _ w r Ht) as [ext Hext].
        apply (Hkeep _ ext). exact Hext.
      * apply (Hkeep _ []). rewrite settled_plain. by rewrite Ht.
    + rewrite (read_by_name_run _ _ _ _ _ H Hid Hn). cbv zeta.
      change (transport (issued w) _) with
        (transport (issued w) (read_by_name_call c d n)).
      destruct (transport (issued w) _) as [r|err] eqn:Ht.
      * destruct (status_code r =? 200)%Z;
          [destruct (json r) as [v|e];
             [destruct (getitem v _) as [data|e];
                [destruct (getitem data _) as [config|e]|]|]|];
          try (apply (Hkeep _ []); rewrite settled_plain; by rewrite Ht).
        rewrite world_bind_ret.
        destruct (settled_construct c config _ w r Ht) as [ext Hext].
        apply (Hkeep _ ext). exact Hext.
      * apply (Hkeep _ []). rewrite settled_plain. by rewrite Ht.
    + exists [], d. split; [by left|].
      by rewrite (read_unidentified_run _ _ _ _ H Hid Hn).
  - rewrite (list_run _ _ _ _ H). cbv zeta.
    change (transport (issued w) _) with (transport (issued w) (list_call c d)).
    destruct (transport (issued w) _) as [r|err] eqn:Ht.
    + destruct (status_code r =? 200)%Z;
        [destruct (json r) as [v|e];
           [destruct (getitem v _) as [data|e];
              [destruct (iterate data) as [configs|e]|]|]|];
        try (apply (Hkeep _ []); rewrite settled_plain; by rewrite Ht).
      rewrite world_bind_ret.
      destruct (settled_mapM_construct c configs _ w r Ht) as [ext Hext].
      apply (Hkeep _ ext). exact Hext.
    + apply (Hkeep _ []). rewrite settled_plain. by rewrite Ht.
  - rewrite (update_run _ _ _ _ H). cbv zeta.
    match goal with
    | |- context [transport (issued w) ?q] =>
        change q with
          (update_call c d
             match d !! "id" with
             | Some i => resource_url c (format str_other i)
             | None => collection_url c
             end)
    end.
    destruct (transport (issued w) _) as [r|err] eqn:Ht.
    + destruct (status_code r =? 200)%Z; [destruct (json r) as [v|e]|];
        apply (Hkeep _ [DictObj d]); unfold settled; by rewrite Ht.
    + apply (Hkeep _ [DictObj d]). unfold settled. by rewrite Ht.
  - destruct (d !! "id") as [i|] eqn:Hid.
    + rewrite (delete_run _ _ _ _ _ H Hid). cbv zeta.
      change (transport (issued w) _) with
        (transport (issued w) (delete_call c d (format str_other i))).
      destruct (transport (issued w) _) as [r|err] eqn:Ht;
        apply (Hkeep _ []); rewrite settled_plain; by rewrite Ht.
    + exists [], d. split; [by left|].
      by rewrite (delete_unidentified_run _ _ _ _ H Hid).
Qed.

Lemma heap_settled req h w : heap (settled transport req h w) = h.
Proof. unfold settled. by destruct (transport _ _). Qed.

Lemma reauthentications_settled req h w :
  reauthentications (session (settled transport req h w))
  = reauthentications (session (refreshed w)).
Proof. unfold settled. by destruct (transport _ _). Qed.

Lemma call_keeps_self m w self c d :
  heap w !! self = Some (Instance c d) ->
  m <> Create ->
  heap (call transport str_other m self w).1 !! self = Some (Instance c d).
Proof.
  intros H Hm. pose proof (lookup_lt_Some _ _ _ H) as Hlt.
  destruct (call_world m w self c d H) as (ext & d' & [->|[-> _]] & ->);
    [|done].
  destruct (planned_call _ _ _ _).
  - rewrite heap_settled. apply list_lookup_insert_eq. rewrite length_app. lia.
  - by rewrite heap_refreshed.
Qed.

(** X1.  Whatever the entity and the transport, a method issues at most
    one call.  It issues none exactly when [read] finds neither [id] nor
    [name] or [delete] finds no [id].  The call uses the method's verb and
    goes to base + endpoint or to a path directly under it.
    Stated for an entity that has no attribute named [_base_url] or
    [_endpoint]: such an attribute would be read in place of the class
    constant. *)
Theorem methods_issue_at_most_one_call m w self c d :
  heap w !! self = Some (Instance c d) ->
  d !! "_base_url" = None ->
  d !! "_endpoint" = None ->
  exists reqs,
    issued (call transport str_other m self w).1 = (issued w ++ reqs)%list
    /\ length reqs <= 1
    /\ (reqs = [] <->
          (m = Read /\ d !! "id" = None /\ d !! "name" = None)
          \/ (m = Delete /\ d !! "id" = None))
    /\ forall req,
         req ∈ reqs ->
         verb req = verb_of m
         /\ (url req = _base_url c ++ _endpoint c
             \/ exists ident,
                  url req = _base_url c ++ _endpoint c ++ "/" ++ ident).
Proof.
  intros H _ _. exists (option_list (planned_call str_other m c d)).
  split; [by apply planned_call_issued|].
  split; [destruct (planned_call _ _ _ _); cbn; lia|].
  split.
  - destruct m; cbn [planned_call];
      repeat match goal with
             | |- context [d !! ?k] => destruct (d !! k) eqn:?
             end;
      cbn [option_list];
      (split;
       [intros ?; try done; first [by left | by right]
       |intros [(? & ? & ?)|(? & ?)]; done]).
  - intros req Hin.
    destruct (planned_call str_other m c d) as [q|] eqn:Hq;
      [|by apply elem_of_nil in Hin].
    apply list_elem_of_singleton in Hin. subst req.
    destruct m; cbn [planned_call] in Hq;
      repeat match type of Hq with
             | context [d !! ?k] => destruct (d !! k) eqn:?
             end;
      try done; injection Hq as <-; (split; [done|]);
      cbn [url create_call read_by_id_call read_by_name_call list_call
           update_call delete_call];
      unfold resource_url, collection_url; eauto.
Qed.

(** X2.  Every method scopes its call to the entity's folder: the query
    parameters of the call hold [folder] with the entity's value when the
    attribute is set, and hold no [folder] when it is not. *)
Theorem folder_scopes_every_call m w self c d req :
  heap w !! self = Some (Instance c d) ->
  issued (call transport str_other m self w).1 = (issued w ++ [req])%list ->
  params req !! "folder" = d !! "folder".
Proof.
  intros H Hreq.
  pose proof (planned_call_of_issued _ _ _ _ _ _ H Hreq) as Hq.
  assert (Hscope : folder_scope d !! "folder" = d !! "folder").
  { unfold folder_scope. destruct (d !! "folder"); [apply lookup_singleton_eq|done]. }
  destruct m; cbn [planned_call] in Hq;
    repeat match type of Hq with
           | context [match d !! ?k with _ => _ end] => destruct (d !! k) eqn:?
           end;
    try done; injection Hq as <-;
    cbn [params create_call read_by_id_call read_by_name_call list_call
         update_call delete_call]; try done.
  - by rewrite lookup_insert_ne.
  - unfold list_scope.
    destruct (d !! "folder"); [apply lookup_insert_eq|done].
Qed.

(** X3.  Only [create] and [update] send a JSON body, and it is the whole
    attribute mapping of the entity; [read], [list] and [delete] send none.
    [read] and [list] pass no headers; the other three pass the JSON
    content type. *)
Theorem bodies_and_headers_by_method m w self c d req :
  heap w !! self = Some (Instance c d) ->
  issued (call transport str_other m self w).1 = (issued w ++ [req])%list ->
  body req = match m with
             | Create | Update => Some d
             | Read | List | Delete => None
             end
  /\ headers req = match m with
                   | Read | List => None
                   | Create | Update | Delete =>
                       Some {["Content-Type" := "application/json"]}
                   end.
Proof.
  intros H Hreq.
  pose proof (planned_call_of_issued _ _ _ _ _ _ H Hreq) as Hq.
  destruct m; cbn [planned_call] in Hq;
    repeat match type of Hq with
           | context [match d !! ?k with _ => _ end] => destruct (d !! k) eqn:?
           end;
    try done; by injection Hq as <-.
Qed.

(** X4.  Every method calls [reauthenticate] exactly once when the session
    is expired and not at all when it is valid, whatever happens next: also
    when [read] or [delete] then stops for a missing identifier. *)
Theorem methods_reauthenticate_once_when_expired m w self c d :
  heap w !! self = Some (Instance c d) ->
  reauthentications (session (call transport str_other m self w).1)
  = reauthentications (session w) + (if is_expired (session w) then 1 else 0).
Proof.
  intros H.
  destruct (call_world m w self c d H) as (ext & d' & _ & ->).
  assert (Hr : reauthentications (session (refreshed w))
               = reauthentications (session w)
                 + (if is_expired (session w) then 1 else 0)).
  { unfold refreshed. destruct (is_expired (session w)); cbn; lia. }
  destruct (planned_call _ _ _ _); [by rewrite reauthentications_settled|done].
Qed.

(** X5.  [read], [list], [update] and [delete] never change an object that
    exists when they are called, the entity included: after [update] or
    [delete], also when the answer is 200, the instance has the attributes
    it had. *)
Theorem only_create_modifies_the_store m w self c d :
  heap w !! self = Some (Instance c d) ->
  m <> Create ->
  forall l x,
    heap w !! l = Some x ->
    heap (call transport str_other m self w).1 !! l = Some x.
Proof.
  intros H Hm l x Hl.
  destruct (call_world m w self c d H) as (ext & d' & [->|[-> _]] & ->);
    [|done].
  destruct (planned_call _ _ _ _); [|by rewrite heap_refreshed].
  rewrite heap_settled, <- (reinsert _ _ _ _ H). by apply lookup_app_l_Some.
Qed.

(** X6.  [create] changes nothing in the store but the entity, and on the
    entity nothing but [id]: the class and every other attribute stay, and
    every other object that existed stays as it was. *)
Theorem create_touches_only_id w self c d :
  heap w !! self = Some (Instance c d) ->
  (exists d',
      heap (create transport self w).1 !! self = Some (Instance c d')
      /\ forall k, k <> "id" -> d' !! k = d !! k)
  /\ forall l x,
       l <> self -> heap w !! l = Some x ->
       heap (create transport self w).1 !! l = Some x.
Proof.
  intros H. pose proof (lookup_lt_Some _ _ _ H) as Hlt.
  destruct (call_world Create w self c d H) as (ext & d' & Hd & Hw).
  cbn [call planned_call] in Hw. rewrite Hw, heap_settled. split.
  - exists d'. split.
    + apply list_lookup_insert_eq. rewrite length_app. lia.
    + intros k Hk. destruct Hd as [->|(_ & v & ->)]; [done|].
      by apply lookup_insert_ne.
  - intros l x Hne Hl. rewrite list_lookup_insert_ne by done.
    by apply lookup_app_l_Some.
Qed.

Lemma response_settled req h w :
  response (session (settled transport req h w))
  = match transport (issued w) req with
    | Responds r => Some r
    | Fails _ => response (session w)
    end.
Proof.
  unfold settled. destruct (transport _ _); cbn; [done|].
  apply response_refreshed.
Qed.

Lemma stdout_settled req h w :
  stdout (settled transport req h w)
  = match transport (issued w) req with
    | Responds _ => stdout w
    | Fails err => (stdout w ++ [err])%list
    end.
Proof.
  unfold settled. destruct (transport _ _); cbn; by rewrite stdout_refreshed.
Qed.

Lemma construct_rejects c v w :
  ~ unpackable v -> construct c v w = (w, Raise TypeError).
Proof.
  intros Hv. destruct v; try done. unfold construct.
  destruct (d !! "self") eqn:Hs; [done|].
  destruct Hv. by exists d.
Qed.

(** X7.  [update] is repeatable: it leaves the entity as it was, so a
    second [update] issues the same PUT (same URL, parameters, headers and
    body) as the first, whatever the first was answered.
    Stated for an entity that has no attribute named [_base_url] or
    [_endpoint]: such an attribute would be read in place of the class
    constant. *)
Theorem update_twice_issues_identical_calls w self c d :
  heap w !! self = Some (Instance c d) ->
  d !! "_base_url" = None ->
  d !! "_endpoint" = None ->
  exists req,
    verb req = PUT
    /\ body req = Some d
    /\ issued (update transport str_other self w).1 = (issued w ++ [req])%list
    /\ issued (update transport str_other self
                 (update transport str_other self w).1).1
       = (issued w ++ [req; req])%list.
Proof.
  intros H _ _.
  assert (H' : heap (update transport str_other self w).1 !! self
               = Some (Instance c d))
    by by apply (call_keeps_self Update).
  eexists. split; [|split; [|split; [by apply update_issued|]]].
  3:{ rewrite (update_issued _ _ _ _ H'), (update_issued _ _ _ _ H).
      by rewrite <- app_assoc. }
  all: done.
Qed.

(** X8.  [delete] on an entity with an [id] never raises and always
    returns nothing, whatever the transport does.  The final [del self]
    has no effect: also after a 200 the instance is still in the store with
    all its attributes, and a second [delete] issues the same call again.
    Stated for an entity that has no attribute named [_base_url] or
    [_endpoint]: such an attribute would be read in place of the class
    constant. *)
Theorem delete_never_raises_and_keeps_instance w self c d i :
  heap w !! self = Some (Instance c d) ->
  d !! "_base_url" = None ->
  d !! "_endpoint" = None ->
  d !! "id" = Some i ->
  (delete transport str_other self w).2 = Ok RNone
  /\ heap (delete transport str_other self w).1 !! self = Some (Instance c d)
  /\ exists req,
       verb req = DELETE
       /\ issued (delete transport str_other self w).1 = (issued w ++ [req])%list
       /\ issued (delete transport str_other self
                    (delete transport str_other self w).1).1
          = (issued w ++ [req; req])%list.
Proof.
  intros H _ _ Hid.
  assert (H' : heap (delete transport str_other self w).1 !! self
               = Some (Instance c d))
    by by apply (call_keeps_self Delete).
  split.
  { rewrite (delete_run _ _ _ _ _ H Hid). cbv zeta.
    by destruct (transport _ _). }
  split; [done|].
  eexists. split; [|split; [by apply (delete_issued _ _ _ _ _ H Hid)|]].
  2:{ rewrite (delete_issued _ _ _ _ _ H' Hid), (delete_issued _ _ _ _ _ H Hid).
      by rewrite <- app_assoc. }
  done.
Qed.

(** X9.  The [try] statement guards the call only.  When [create], [read],
    [list] or [update] is answered with the status it tests for and
    [.json()] raises, the exception reaches the caller; by then the
    response is stored on the session, and the entity is unchanged. *)
Theorem json_failure_propagates m w self c d req r e :
  heap w !! self = Some (Instance c d) ->
  m <> Delete ->
  issued (call transport str_other m self w).1 = (issued w ++ [req])%list ->
  transport (issued w) req = Responds r ->
  status_code r = success_code m ->
  json r = Raise e ->
  (call transport str_other m self w).2 = Raise e
  /\ heap (call transport str_other m self w).1 !! self = Some (Instance c d)
  /\ response (session (call transport str_other m self w).1) = Some r
  /\ stdout (call transport str_other m self w).1 = stdout w.
Proof.
  intros H Hm Hreq Ht Hs Hj.
  pose proof (planned_call_of_issued _ _ _ _ _ _ H Hreq) as Hq.
  pose proof (lookup_old_cell _ (DictObj d) _ _ H) as H'.
  destruct m; cbn [call success_code planned_call] in *; [| | | |done].
  - injection Hq as <-.
    rewrite (create_run _ _ _ _ H). cbv zeta.
    change (transport (issued w) _) with (transport (issued w) (create_call c d)).
    rewrite Ht, Hs, Hj. cbn [Z.eqb Pos.eqb]. by world_fields.
  - destruct (d !! "id") as [i|] eqn:Hid;
      [|destruct (d !! "name") as [n|] eqn:Hn]; [| |done].
    + injection Hq as <-.
      rewrite (read_by_id_run _ _ _ _ _ H Hid). cbv zeta.
      change (transport (issued w) _) with
        (transport (issued w) (read_by_id_call c d (format str_other i))).
      rewrite Ht, Hs, Hj. cbn [Z.eqb Pos.eqb]. by world_fields.
    + injection Hq as <-.
      rewrite (read_by_name_run _ _ _ _ _ H Hid Hn). cbv zeta.
      change (transport (issued w) _) with
        (transport (issued w) (read_by_name_call c d n)).
      rewrite Ht, Hs, Hj. cbn [Z.eqb Pos.eqb]. by world_fields.
  - injection Hq as <-.
    rewrite (list_run _ _ _ _ H). cbv zeta.
    change (transport (issued w) _) with (transport (issued w) (list_call c d)).
    rewrite Ht, Hs, Hj. cbn [Z.eqb Pos.eqb]. by world_fields.
  - injection Hq as <-.
    rewrite (update_run _ _ _ _ H). cbv zeta.
    change (transport (issued w) _) with
      (transport (issued w)
         (update_call c d
            match d !! "id" with
            | Some i => resource_url c (format str_other i)
            | None => collection_url c
            end)).
    rewrite Ht, Hs, Hj. cbn [Z.eqb Pos.eqb]. by world_fields.
Qed.

(** X10.  When [create] is answered with status 201 and a JSON value that
    is not an object (a list, a string, a number, null), it raises the
    [AttributeError] of the missing [get] method: the call has been made
    and the response stored, but the entity gets no [id].
    Stated for an entity that has no attribute named [_base_url] or
    [_endpoint]: such an attribute would be read in place of the class
    constant. *)
Theorem create_201_without_object_raises w self c d r v :
  heap w !! self = Some (Instance c d) ->
  d !! "_base_url" = None ->
  d !! "_endpoint" = None ->
  transport (issued w) (create_call c d) = Responds r ->
  status_code r = 201%Z ->
  json r = Ok v ->
  (forall m, v <> VDict m) ->
  (create transport self w).2 = Raise (AttributeError "get")
  /\ heap (create transport self w).1 !! self = Some (Instance c d)
  /\ issued (create transport self w).1 = (issued w ++ [create_call c d])%list
  /\ response (session (create transport self w).1) = Some r.
Proof.
  intros H _ _ Ht Hs Hj Hv.
  pose proof (lookup_old_cell _ (DictObj d) _ _ H) as H'.
  split; [|split; [|split; [by apply create_issued|]]];
    rewrite (create_run _ _ _ _ H); cbv zeta;
    change (transport (issued w) _) with (transport (issued w) (create_call c d));
    rewrite Ht, Hs, Hj; cbn [Z.eqb Pos.eqb];
    (destruct v; [..|by destruct (Hv d0)]); by world_fields.
Qed.

(** X11.  Bookkeeping of the call, for every method and however the method
    ends: when the call is answered, with any status, the response is
    stored on the session and nothing is printed; when the call raises, the
    session keeps the response of an earlier call and the text of the
    exception is the one line printed. *)
Theorem answered_calls_are_stored_and_silent m w self c d req :
  heap w !! self = Some (Instance c d) ->
  issued (call transport str_other m self w).1 = (issued w ++ [req])%list ->
  (forall r,
      transport (issued w) req = Responds r ->
      response (session (call transport str_other m self w).1) = Some r
      /\ stdout (call transport str_other m self w).1 = stdout w)
  /\ (forall err,
      transport (issued w) req = Fails err ->
      response (session (call transport str_other m self w).1)
      = response (session w)
      /\ stdout (call transport str_other m self w).1
         = (stdout w ++ [err])%list).
Proof.
  intros H Hreq.
  pose proof (planned_call_of_issued _ _ _ _ _ _ H Hreq) as Hq.
  destruct (call_world m w self c d H) as (ext & d' & _ & ->).
  rewrite Hq, response_settled, stdout_settled.
  split; by intros ? ->.
Qed.

Lemma mapM_construct_stops c (ms : list (gmap string value)) bad rest w :
  Forall (fun m => m !! "self" = None) ms ->
  ~ unpackable bad ->
  mapM (construct c) ((VDict <$> ms) ++ bad :: rest) w =
    (with_heap (heap w ++ (Instance c <$> ms)) w, Raise TypeError).
Proof.
  intros Hms Hbad. revert w. induction Hms as [|m ms Hm _ IH]; intros w.
  - cbn [fmap list_fmap app mapM].
    rewrite (bind_raise _ _ _ _ _ (construct_rejects c bad w Hbad)).
    unfold with_heap. rewrite app_nil_r. by destruct w.
  - cbn [fmap list_fmap app mapM].
    rewrite (bind_run _ _ _ _ _ (construct_run c m w Hm)).
    rewrite (bind_raise _ _ _ _ _ (IH _)). unfold with_heap.
    cbn [heap session issued stdout]. by rewrite <- app_assoc.
Qed.

(** X12.  What [read] returns can be written back: when [read] by [id] is
    answered with status 200 and an object, [update] on the returned
    instance sends exactly that object as its body, scoped by the object's
    own [folder], to the path of the object's own [id] (to base + endpoint
    when the object has no [id]).
    Stated for an entity that has no attribute named [_base_url] or
    [_endpoint]: such an attribute would be read in place of the class
    constant. *)
Theorem read_then_update_writes_back w self c d i r m :
  heap w !! self = Some (Instance c d) ->
  d !! "_base_url" = None ->
  d !! "_endpoint" = None ->
  d !! "id" = Some i ->
  transport (issued w) (read_by_id_call c d (format str_other i)) = Responds r ->
  status_code r = 200%Z ->
  json r = Ok (VDict m) ->
  m !! "self" = None ->
  m !! "_base_url" = None ->
  m !! "_endpoint" = None ->
  exists o w1 rq,
    read transport str_other self w = (w1, Ok (RObj o))
    /\ issued (update transport str_other o w1).1 = (issued w1 ++ [rq])%list
    /\ verb rq = PUT
    /\ body rq = Some m
    /\ params rq !! "folder" = m !! "folder"
    /\ url rq = match m !! "id" with
                | Some j => _base_url c ++ _endpoint c ++ "/" ++ format str_other j
                | None => _base_url c ++ _endpoint c
                end.
Proof.
  intros H _ _ Hid Ht Hs Hj Hm _ _.
  rewrite (read_by_id_run _ _ _ _ _ H Hid). cbv zeta.
  change (transport (issued w) _) with
    (transport (issued w) (read_by_id_call c d (format str_other i))).
  rewrite Ht, Hs, Hj. cbn [Z.eqb Pos.eqb].
  rewrite (bind_run _ _ _ _ _ (construct_run c m _ Hm)).
  eexists _, _, _. split; [done|].
  split; [apply (update_issued _ _ c m); apply lookup_new_cell|].
  split; [done|]. split; [done|]. split.
  - cbn [params update_call]. unfold folder_scope.
    destruct (m !! "folder"); [apply lookup_singleton_eq|done].
  - cbn [url update_call]. by destruct (m !! "id").
Qed.

(** X13.  After [create] is answered with status 201 and an object whose
    [id] is [v], the entity addresses the new resource: [read], [update]
    and [delete] each issue their call on base + endpoint + "/" + str(v),
    and [read] sends no [name] parameter.
    Stated for an entity that has no attribute named [_base_url] or
    [_endpoint]: such an attribute would be read in place of the class
    constant. *)
Theorem create_then_methods_target_assigned_id w self c d r m v :
  heap w !! self = Some (Instance c d) ->
  d !! "_base_url" = None ->
  d !! "_endpoint" = None ->
  transport (issued w) (create_call c d) = Responds r ->
  status_code r = 201%Z ->
  json r = Ok (VDict m) ->
  m !! "id" = Some v ->
  let w' := (create transport self w).1 in
  let target := _base_url c ++ _endpoint c ++ "/" ++ format str_other v in
  (exists rq,
      issued (read transport str_other self w').1 = (issued w' ++ [rq])%list
      /\ verb rq = GET /\ url rq = target /\ params rq !! "name" = None)
  /\ (exists rq,
      issued (update transport str_other self w').1 = (issued w' ++ [rq])%list
      /\ verb rq = PUT /\ url rq = target)
  /\ (exists rq,
      issued (delete transport str_other self w').1 = (issued w' ++ [rq])%list
      /\ verb rq = DELETE /\ url rq = target).
Proof.
  intros H _ _ Ht Hs Hj Hm w' target.
  pose proof (lookup_lt_Some _ _ _ H) as Hlt.
  assert (H' : heap w' !! self = Some (Instance c (<["id" := v]> d))).
  { subst w'. rewrite (create_run _ _ _ _ H). cbv zeta.
    change (transport (issued w) _) with (transport (issued w) (create_call c d)).
    rewrite Ht, Hs, Hj, Hm. cbn [Z.eqb Pos.eqb default]. world_fields.
    apply list_lookup_insert_eq. rewrite length_app. lia. }
  assert (Hid : (<["id" := v]> d) !! "id" = Some v) by apply lookup_insert_eq.
  split; [|split].
  - eexists. split; [by apply (read_by_id_issued _ _ _ _ _ H' Hid)|].
    split; [done|]. split; [done|].
    cbn [params read_by_id_call]. unfold folder_scope.
    destruct (_ !! "folder"); [by rewrite lookup_singleton_ne|done].
  - eexists. split; [by apply (update_issued _ _ _ _ H')|].
    split; [done|]. cbn [url update_call]. by rewrite Hid.
  - eexists. split; [by apply (delete_issued _ _ _ _ _ H' Hid)|]. done.
Qed.

(** X14.  [read] raises [TypeError] when the JSON it has to unpack into
    the constructor is not an object, or is an object with a key named
    self: the whole body when looking up by [id], the first element of
    [data] when looking up by [name].  No instance is created.
    Stated for an entity that has no attribute named [_base_url] or
    [_endpoint]: such an attribute would be read in place of the class
    constant. *)
Theorem read_rejects_unpackable_json w self c d r :
  heap w !! self = Some (Instance c d) ->
  d !! "_base_url" = None ->
  d !! "_endpoint" = None ->
  status_code r = 200%Z ->
  (forall i v,
      d !! "id" = Some i ->
      transport (issued w) (read_by_id_call c d (format str_other i))
      = Responds r ->
      json r = Ok v -> ~ unpackable v ->
      (read transport str_other self w).2 = Raise TypeError
      /\ heap (read transport str_other self w).1 = heap w)
  /\ (forall n result v rest,
      d !! "id" = None -> d !! "name" = Some n ->
      transport (issued w) (read_by_name_call c d n) = Responds r ->
      json r = Ok (VDict result) ->
      result !! "data" = Some (VList (v :: rest)) -> ~ unpackable v ->
      (read transport str_other self w).2 = Raise TypeError
      /\ heap (read transport str_other self w).1 = heap w).
Proof.
  intros H _ _ Hs. split.
  - intros i v Hid Ht Hj Hv.
    rewrite (read_by_id_run _ _ _ _ _ H Hid). cbv zeta.
    change (transport (issued w) _) with
      (transport (issued w) (read_by_id_call c d (format str_other i))).
    rewrite Ht, Hs, Hj. cbn [Z.eqb Pos.eqb].
    rewrite (bind_raise _ _ _ _ _ (construct_rejects c v _ Hv)).
    by world_fields.
  - intros n result v rest Hid Hn Ht Hj Hdata Hv.
    rewrite (read_by_name_run _ _ _ _ _ H Hid Hn). cbv zeta.
    change (transport (issued w) _) with
      (transport (issued w) (read_by_name_call c d n)).
    rewrite Ht, Hs, Hj. cbn [Z.eqb Pos.eqb getitem]. rewrite Hdata.
    cbn [getitem]. change (seq_index (v :: rest) 0) with (Ok v). cbv iota.
    rewrite (bind_raise _ _ _ _ _ (construct_rejects c v _ Hv)).
    by world_fields.
Qed.

(** X15.  [list] returns no partial result: when an element of [data]
    cannot be unpacked into the constructor, [list] raises [TypeError]
    although the elements before it have already been turned into
    instances, which stay in the store.
    Stated for an entity that has no attribute named [_base_url] or
    [_endpoint]: such an attribute would be read in place of the class
    constant. *)
Theorem list_stops_at_first_unpackable_element w self c d r result
    (ms : list (gmap string value)) bad rest :
  heap w !! self = Some (Instance c d) ->
  d !! "_base_url" = None ->
  d !! "_endpoint" = None ->
  transport (issued w) (list_call c d) = Responds r ->
  status_code r = 200%Z ->
  json r = Ok result ->
  getitem result (VStr "data") = Ok (VList ((VDict <$> ms) ++ bad :: rest)) ->
  Forall (fun m => m !! "self" = None) ms ->
  ~ unpackable bad ->
  (list_ transport self w).2 = Raise TypeError
  /\ heap (list_ transport self w).1 = (heap w ++ (Instance c <$> ms))%list.
Proof.
  intros H _ _ Ht Hs Hj Hdata Hms Hbad.
  rewrite (list_run _ _ _ _ H). cbv zeta.
  change (transport (issued w) _) with (transport (issued w) (list_call c d)).
  rewrite Ht, Hs, Hj, Hdata. cbn [Z.eqb Pos.eqb iterate].
  rewrite (bind_raise _ _ _ _ _ (mapM_construct_stops c ms bad rest _ Hms Hbad)).
  by world_fields.
Qed.

(** X16.  [update] has no identifier check: on an entity without [id] it
    issues its PUT on the collection path base + endpoint.  Whatever the
    entity, [update] returns nothing, and the only exception it can raise
    is the one that [.json()] raises on an answer with status 200.
    Stated for an entity that has no attribute named [_base_url] or
    [_endpoint]: such an attribute would be read in place of the class
    constant. *)
Theorem update_without_id_puts_to_collection w self c d :
  heap w !! self = Some (Instance c d) ->
  d !! "_base_url" = None ->
  d !! "_endpoint" = None ->
  (d !! "id" = None ->
      exists req,
        issued (update transport str_other self w).1 = (issued w ++ [req])%list
        /\ verb req = PUT
        /\ url req = _base_url c ++ _endpoint c)
  /\ ((update transport str_other self w).2 = Ok RNone
      \/ exists req r e,
           issued (update transport str_other self w).1
           = (issued w ++ [req])%list
           /\ transport (issued w) req = Responds r
           /\ status_code r = 200%Z
           /\ json r = Raise e
           /\ (update transport str_other self w).2 = Raise e).
Proof.
  intros H _ _. split.
  - intros Hid. eexists. split; [by apply update_issued|].
    split; [done|]. cbn [url update_call]. by rewrite Hid.
  - set (q := update_call c d
                match d !! "id" with
                | Some i => resource_url c (format str_other i)
                | None => collection_url c
                end).
    assert (Hres : (update transport str_other self w).2 =
                   match transport (issued w) q with
                   | Responds r =>
                       if (status_code r =? 200)%Z
                       then match json r with
                            | Ok _ => Ok RNone
                            | Raise e => Raise e
                            end
                       else Ok RNone
                   | Fails _ => Ok RNone
                   end).
    { rewrite (update_run _ _ _ _ H). cbv zeta.
      change (transport (issued w) _) with (transport (issued w) q).
      destruct (transport (issued w) q) as [r|err]; [|done].
      destruct (status_code r =? 200)%Z; [|done]. by destruct (json r). }
    rewrite Hres.
    destruct (transport (issued w) q) as [r|err] eqn:Ht; [|by left].
    destruct (status_code r =? 200)%Z eqn:Hs; [|by left].
    destruct (json r) as [v|e] eqn:Hj; [by left|].
    right. apply Z.eqb_eq in Hs. exists q, r, e.
    split; [by apply update_issued|]. done.
Qed.

End Properties.

(** ** The statements at sample inputs *)

Lemma create_update_body_contains_folder_witness :
  heap (world_of scoped) !! 0 = Some (Instance address_class scoped)
  /\ scoped !! "folder" = Some (VStr "Shared")
  /\ exists req js,
       issued (create unreachable 0 (world_of scoped)).1 = [req]
       /\ params req !! "folder" = Some (VStr "Shared")
       /\ body req = Some js
       /\ js !! "folder" = Some (VStr "Shared").
Proof.
  split; [reflexivity|]. split; [reflexivity|].
  destruct (create_update_body_contains_folder unreachable plain_str
              (world_of scoped) 0 address_class scoped (VStr "Shared")
              eq_refl eq_refl)
    as [(req & js & Hi & _ & Hp & Hb & _ & Hj) _].
  exists req, js. repeat split; assumption.
Defined.

Lemma create_sets_id_on_201_only_witness :
  heap (create (answers 201 (VDict {["id" := VStr "abc"]})) 0
          (world_of named)).1 !! 0
  = Some (Instance address_class (<["id" := VStr "abc"]> named))
  /\ heap (create (answers 409 VNone) 0 (world_of named)).1 !! 0
     = Some (Instance address_class named).
Proof.
  split.
  - destruct (create_sets_id_on_201_only
                (answers 201 (VDict {["id" := VStr "abc"]}))
                (world_of named) 0 address_class named _ eq_refl eq_refl eq_refl eq_refl)
      as [Hok _].
    destruct (Hok {["id" := VStr "abc"]} (VStr "abc") eq_refl eq_refl eq_refl)
      as (_ & Hh & _).
    exact Hh.
  - destruct (create_sets_id_on_201_only (answers 409 VNone)
                (world_of named) 0 address_class named _ eq_refl eq_refl eq_refl eq_refl)
      as [_ Hko].
    destruct (Hko ltac:(discriminate)) as (_ & Hh & _).
    exact Hh.
Defined.

Lemma read_targets_id_before_name_witness :
  (exists o,
      (read (answers 200 (VDict identified)) plain_str 0
         (world_of identified)).2 = Ok (RObj o))
  /\ (exists o,
      (read (answers 200 (VDict {["data" := VList [VDict named]]}))
         plain_str 0 (world_of named)).2 = Ok (RObj o)).
Proof.
  split.
  - destruct (read_targets_id_before_name (answers 200 (VDict identified))
                plain_str (world_of identified) 0 address_class identified
                eq_refl eq_refl eq_refl) as [Hid _].
    destruct (Hid (VStr "x") eq_refl) as (_ & _ & _ & _ & _ & Hret).
    destruct (Hret _ identified eq_refl eq_refl eq_refl eq_refl)
      as (o & Ho & _).
    exists o. exact Ho.
  - destruct (read_targets_id_before_name
                (answers 200 (VDict {["data" := VList [VDict named]]}))
                plain_str (world_of named) 0 address_class named
                eq_refl eq_refl eq_refl) as [_ Hname].
    destruct (Hname (VStr "web") eq_refl eq_refl) as (_ & _ & _ & _ & _ & Hret).
    destruct (Hret _ {["data" := VList [VDict named]]} named []
                eq_refl eq_refl eq_refl eq_refl eq_refl)
      as (o & Ho & _).
    exists o. exact Ho.
Defined.

Lemma read_requires_identifier_witness :
  (read unreachable plain_str 0 (world_of blank)).2
  = Raise (ValueError "name or id value is required")
  /\ issued (read unreachable plain_str 0 (world_of blank)).1 = []
  /\ (read unreachable plain_str 0 (world_of named)).2 = Ok RNone
  /\ (read (answers 404 VNone) plain_str 0 (world_of named)).2 = Ok RNone.
Proof.
  destruct (read_requires_identifier unreachable plain_str (world_of blank) 0
              address_class blank eq_refl eq_refl eq_refl) as [Hpre _].
  destruct (Hpre eq_refl eq_refl) as (Hr & Hi & _).
  split; [exact Hr|]. split; [exact Hi|]. split.
  - destruct (read_requires_identifier unreachable plain_str (world_of named) 0
                address_class named eq_refl eq_refl eq_refl) as [_ Hfail].
    destruct (Hfail (read_by_name_call address_class named (VStr "web"))
                eq_refl) as [Herr _].
    exact (Herr _ eq_refl).
  - destruct (read_requires_identifier (answers 404 VNone) plain_str
                (world_of named) 0 address_class named eq_refl eq_refl eq_refl) as [_ Hfail].
    destruct (Hfail (read_by_name_call address_class named (VStr "web"))
                eq_refl) as [_ Hstatus].
    exact (Hstatus _ eq_refl ltac:(discriminate)).
Defined.

Lemma list_sends_limit_and_rebuilds_in_order_witness :
  heap (world_of scoped) !! 0 = Some (Instance address_class scoped)
  /\ params (list_call address_class scoped)
     = {["folder" := VStr "Shared"; "limit" := VInt 5000]}
  /\ exists objs,
       (list_ (answers 200 (VDict {["data" := VList [VDict named; VDict scoped]]}))
          0 (world_of scoped)).2 = Ok (RList objs)
       /\ length objs = 2.
Proof.
  split; [reflexivity|].
  destruct (list_sends_limit_and_rebuilds_in_order
              (answers 200 (VDict {["data" := VList [VDict named; VDict scoped]]}))
              (world_of scoped) 0 address_class scoped eq_refl eq_refl eq_refl)
    as (_ & _ & _ & Hp & _ & Hret).
  split; [exact (Hp _ eq_refl)|].
  destruct (Hret _ (VDict {["data" := VList [VDict named; VDict scoped]]})
              [named; scoped] eq_refl eq_refl eq_refl eq_refl
              ltac:(repeat constructor))
    as (objs & Ho & Hl & _).
  exists objs. split; assumption.
Defined.

Lemma delete_without_id_raises_attribute_error_witness :
  heap (world_of named) !! 0 = Some (Instance address_class named)
  /\ named !! "id" = None
  /\ (delete unreachable plain_str 0 (world_of named)).2
     = Raise (AttributeError "id")
  /\ issued (delete unreachable plain_str 0 (world_of named)).1 = [].
Proof.
  split; [reflexivity|]. split; [reflexivity|].
  destruct (delete_without_id_raises_attribute_error unreachable plain_str
              (world_of named) 0 address_class named eq_refl eq_refl)
    as (Hr & _ & Hi & _).
  split; assumption.
Defined.

Lemma failures_are_swallowed_witness :
  ((call unreachable plain_str Update 0 (world_of scoped)).2 = Ok RNone
   /\ heap (call unreachable plain_str Update 0 (world_of scoped)).1 !! 0
      = Some (Instance address_class scoped)
   /\ stdout (call unreachable plain_str Update 0 (world_of scoped)).1
      = ["connection refused"])
  /\ ((call (answers 500 VNone) plain_str Create 0 (world_of scoped)).2
      = Ok RNone
      /\ heap (call (answers 500 VNone) plain_str Create 0 (world_of scoped)).1 !! 0
         = Some (Instance address_class scoped)).
Proof.
  split.
  - destruct (failures_are_swallowed unreachable plain_str Update
                (world_of scoped) 0 address_class scoped
                (update_call address_class scoped (collection_url address_class))
                eq_refl eq_refl) as [Herr _].
    exact (Herr _ eq_refl).
  - destruct (failures_are_swallowed (answers 500 VNone) plain_str Create
                (world_of scoped) 0 address_class scoped
                (create_call address_class scoped)
                eq_refl eq_refl) as [_ Hstatus].
    destruct (Hstatus _ eq_refl ltac:(discriminate)) as (Hr & Hh & _).
    split; assumption.
Defined.

Lemma read_list_unguarded_data_access_witness :
  (read (answers 200 (VDict {["data" := VList []]})) plain_str 0
     (world_of named)).2 = Raise IndexError
  /\ (read (answers 200 (VDict blank)) plain_str 0 (world_of named)).2
     = Raise (KeyError (VStr "data"))
  /\ (list_ (answers 200 (VDict blank)) 0 (world_of named)).2
     = Raise (KeyError (VStr "data")).
Proof.
  split; [|split].
  - destruct (read_list_unguarded_data_access
                (answers 200 (VDict {["data" := VList []]})) plain_str
                (world_of named) 0 address_class named eq_refl eq_refl eq_refl) as [Hread _].
    destruct (Hread (VStr "web") _ {["data" := VList []]}
                eq_refl eq_refl eq_refl eq_refl eq_refl) as [Hempty _].
    exact (Hempty eq_refl).
  - destruct (read_list_unguarded_data_access
                (answers 200 (VDict blank)) plain_str
                (world_of named) 0 address_class named eq_refl eq_refl eq_refl) as [Hread _].
    destruct (Hread (VStr "web") _ blank
                eq_refl eq_refl eq_refl eq_refl eq_refl) as [_ Hmissing].
    exact (Hmissing eq_refl).
  - destruct (read_list_unguarded_data_access
                (answers 200 (VDict blank)) plain_str
                (world_of named) 0 address_class named eq_refl eq_refl eq_refl) as [_ Hlist].
    exact (Hlist _ blank eq_refl eq_refl eq_refl eq_refl).
Defined.

Lemma create_without_id_field_sets_none_witness :
  heap (create (answers 201 (VDict blank)) 0 (world_of named)).1 !! 0
  = Some (Instance address_class (<["id" := VNone]> named))
  /\ exists rq,
       issued (read (answers 201 (VDict blank)) plain_str 0
                 (create (answers 201 (VDict blank)) 0 (world_of named)).1).1
       = (issued (create (answers 201 (VDict blank)) 0 (world_of named)).1
          ++ [rq])%list
       /\ url rq = "https://api.sase.paloaltonetworks.com/sse/config/v1/addresses/None".
Proof.
  destruct (create_without_id_field_sets_none (answers 201 (VDict blank))
              plain_str (world_of named) 0 address_class named _ blank
              eq_refl eq_refl eq_refl eq_refl eq_refl eq_refl eq_refl)
    as (Hh & _ & _ & (rq & Hi & _ & Hu & _) & _).
  split; [exact Hh|].
  exists rq. split; [exact Hi|exact Hu].
Defined.

(** ** The further properties at sample inputs *)

Lemma methods_issue_at_most_one_call_witness :
  heap (world_of named) !! 0 = Some (Instance address_class named)
  /\ exists reqs,
       issued (call unreachable plain_str Read 0 (world_of named)).1 = reqs
       /\ length reqs <= 1.
Proof.
  split; [reflexivity|].
  destruct (methods_issue_at_most_one_call unreachable plain_str Read
              (world_of named) 0 address_class named eq_refl eq_refl eq_refl)
    as (reqs & Hi & Hl & _).
  exists reqs. split; [exact Hi|exact Hl].
Defined.

Lemma folder_scopes_every_call_witness :
  params (delete_call address_class (<["id" := VStr "x"]> scoped) "x")
    !! "folder" = Some (VStr "Shared")
  /\ params (read_by_name_call address_class named (VStr "web"))
       !! "folder" = None.
Proof.
  split.
  - exact (folder_scopes_every_call unreachable plain_str Delete
             (world_of (<["id" := VStr "x"]> scoped)) 0 address_class
             (<["id" := VStr "x"]> scoped)
             (delete_call address_class (<["id" := VStr "x"]> scoped) "x")
             eq_refl eq_refl).
  - exact (folder_scopes_every_call unreachable plain_str Read
             (world_of named) 0 address_class named
             (read_by_name_call address_class named (VStr "web"))
             eq_refl eq_refl).
Defined.

Lemma bodies_and_headers_by_method_witness :
  body (create_call address_class scoped) = Some scoped
  /\ headers (list_call address_class scoped) = None.
Proof.
  split.
  - exact (proj1 (bodies_and_headers_by_method (answers 201 VNone) plain_str
                    Create (world_of scoped) 0 address_class scoped
                    (create_call address_class scoped) eq_refl eq_refl)).
  - exact (proj2 (bodies_and_headers_by_method (answers 200 VNone) plain_str
                    List (world_of scoped) 0 address_class scoped
                    (list_call address_class scoped) eq_refl eq_refl)).
Defined.

Lemma methods_reauthenticate_once_when_expired_witness :
  reauthentications
    (session (call unreachable plain_str Read 0 (world_of blank)).1) = 1.
Proof.
  exact (methods_reauthenticate_once_when_expired unreachable plain_str Read
           (world_of blank) 0 address_class blank eq_refl).
Defined.

Lemma only_create_modifies_the_store_witness :
  heap (call (answers 200 (VDict named)) plain_str Update 0
          (world_of identified)).1 !! 0
  = Some (Instance address_class identified).
Proof.
  exact (only_create_modifies_the_store (answers 200 (VDict named)) plain_str
           Update (world_of identified) 0 address_class identified eq_refl
           ltac:(discriminate) 0 _ eq_refl).
Defined.

Lemma create_touches_only_id_witness :
  exists d',
    heap (create (answers 201 (VDict identified)) 0 (world_of scoped)).1 !! 0
    = Some (Instance address_class d')
    /\ d' !! "folder" = Some (VStr "Shared").
Proof.
  destruct (create_touches_only_id (answers 201 (VDict identified)) plain_str
              (world_of scoped) 0 address_class scoped eq_refl)
    as [(d' & Hh & Hk) _].
  exists d'. split; [exact Hh|].
  rewrite (Hk "folder" ltac:(discriminate)). reflexivity.
Defined.

Lemma update_twice_issues_identical_calls_witness :
  exists req,
    issued (update (answers 200 VNone) plain_str 0
              (update (answers 200 VNone) plain_str 0
                 (world_of identified)).1).1
    = [req; req].
Proof.
  destruct (update_twice_issues_identical_calls (answers 200 VNone) plain_str
              (world_of identified) 0 address_class identified eq_refl eq_refl eq_refl)
    as (req & _ & _ & _ & H2).
  exists req. exact H2.
Defined.

Lemma delete_never_raises_and_keeps_instance_witness :
  (delete (answers 200 VNone) plain_str 0 (world_of identified)).2 = Ok RNone
  /\ heap (delete (answers 200 VNone) plain_str 0 (world_of identified)).1 !! 0
     = Some (Instance address_class identified).
Proof.
  destruct (delete_never_raises_and_keeps_instance (answers 200 VNone)
              plain_str (world_of identified) 0 address_class identified
              (VStr "x") eq_refl eq_refl eq_refl eq_refl) as (Hr & Hh & _).
  split; [exact Hr|exact Hh].
Defined.

Lemma json_failure_propagates_witness :
  (call (fun _ _ => Responds {| status_code := 200;
                                json := Raise JSONDecodeError |})
     plain_str List 0 (world_of scoped)).2 = Raise JSONDecodeError.
Proof.
  exact (proj1 (json_failure_propagates
                  (fun _ _ => Responds {| status_code := 200;
                                          json := Raise JSONDecodeError |})
                  plain_str List (world_of scoped) 0 address_class scoped
                  (list_call address_class scoped) _ JSONDecodeError
                  eq_refl ltac:(discriminate) eq_refl eq_refl eq_refl eq_refl)).
Defined.

Lemma create_201_without_object_raises_witness :
  (create (answers 201 (VList [])) 0 (world_of named)).2
  = Raise (AttributeError "get")
  /\ heap (create (answers 201 (VList [])) 0 (world_of named)).1 !! 0
     = Some (Instance address_class named).
Proof.
  destruct (create_201_without_object_raises (answers 201 (VList []))
              (world_of named) 0 address_class named _ (VList [])
              eq_refl eq_refl eq_refl eq_refl eq_refl eq_refl ltac:(discriminate))
    as (Hr & Hh & _).
  split; [exact Hr|exact Hh].
Defined.

Lemma answered_calls_are_stored_and_silent_witness :
  stdout (call (answers 200 (VList [])) plain_str Read 0
            (world_of identified)).1 = []
  /\ response (session (call unreachable plain_str Read 0
                          (world_of identified)).1) = None.
Proof.
  split.
  - destruct (answered_calls_are_stored_and_silent (answers 200 (VList []))
                plain_str Read (world_of identified) 0 address_class identified
                (read_by_id_call address_class identified "x")
                eq_refl eq_refl) as [Hok _].
    exact (proj2 (Hok _ eq_refl)).
  - destruct (answered_calls_are_stored_and_silent unreachable
                plain_str Read (world_of identified) 0 address_class identified
                (read_by_id_call address_class identified "x")
                eq_refl eq_refl) as [_ Hko].
    exact (proj1 (Hko _ eq_refl)).
Defined.

Lemma read_then_update_writes_back_witness :
  exists o w1 rq,
    read (answers 200 (VDict scoped)) plain_str 0 (world_of identified)
    = (w1, Ok (RObj o))
    /\ issued (update (answers 200 (VDict scoped)) plain_str o w1).1
       = (issued w1 ++ [rq])%list
    /\ body rq = Some scoped.
Proof.
  destruct (read_then_update_writes_back (answers 200 (VDict scoped)) plain_str
              (world_of identified) 0 address_class identified (VStr "x") _
              scoped eq_refl eq_refl eq_refl eq_refl eq_refl eq_refl eq_refl eq_refl
              eq_refl eq_refl)
    as (o & w1 & rq & Hr & Hi & _ & Hb & _).
  exists o, w1, rq. split; [exact Hr|]. split; [exact Hi|exact Hb].
Defined.

Lemma create_then_methods_target_assigned_id_witness :
  exists rq,
    issued (delete (answers 201 (VDict identified)) plain_str 0
              (create (answers 201 (VDict identified)) 0 (world_of named)).1).1
    = (issued (create (answers 201 (VDict identified)) 0 (world_of named)).1
       ++ [rq])%list
    /\ url rq = "https://api.sase.paloaltonetworks.com/sse/config/v1/addresses/x".
Proof.
  destruct (create_then_methods_target_assigned_id
              (answers 201 (VDict identified))
              plain_str (world_of named) 0 address_class named _ identified
              (VStr "x") eq_refl eq_refl eq_refl eq_refl eq_refl eq_refl eq_refl)
    as (_ & _ & (rq & Hi & _ & Hu)).
  exists rq. split; [exact Hi|exact Hu].
Defined.

Lemma read_rejects_unpackable_json_witness :
  (read (answers 200 (VList [])) plain_str 0 (world_of identified)).2
  = Raise TypeError
  /\ (read (answers 200 (VDict {["data" := VList [VStr "web"]]})) plain_str 0
        (world_of named)).2 = Raise TypeError.
Proof.
  split.
  - destruct (read_rejects_unpackable_json (answers 200 (VList [])) plain_str
                (world_of identified) 0 address_class identified
                {| status_code := 200; json := Ok (VList []) |}
                eq_refl eq_refl eq_refl eq_refl) as [Hid _].
    refine (proj1 (Hid (VStr "x") (VList []) eq_refl eq_refl eq_refl _)).
    intros (m & Hm & _). discriminate Hm.
  - destruct (read_rejects_unpackable_json
                (answers 200 (VDict {["data" := VList [VStr "web"]]}))
                plain_str (world_of named) 0 address_class named
                {| status_code := 200;
                   json := Ok (VDict {["data" := VList [VStr "web"]]}) |}
                eq_refl eq_refl eq_refl eq_refl) as [_ Hname].
    refine (proj1 (Hname (VStr "web") {["data" := VList [VStr "web"]]}
                     (VStr "web") [] eq_refl eq_refl eq_refl eq_refl eq_refl _)).
    intros (m & Hm & _). discriminate Hm.
Defined.

Lemma list_stops_at_first_unpackable_element_witness :
  (list_ (answers 200 (VDict {["data" := VList [VDict named; VInt 7]]})) 0
     (world_of scoped)).2 = Raise TypeError
  /\ heap (list_ (answers 200 (VDict {["data" := VList [VDict named; VInt 7]]}))
             0 (world_of scoped)).1
     = [Instance address_class scoped; Instance address_class named].
Proof.
  refine (list_stops_at_first_unpackable_element
            (answers 200 (VDict {["data" := VList [VDict named; VInt 7]]}))
            (world_of scoped) 0 address_class scoped _
            (VDict {["data" := VList [VDict named; VInt 7]]})
            [named] (VInt 7) []
            eq_refl eq_refl eq_refl eq_refl eq_refl eq_refl eq_refl
            ltac:(repeat constructor) _).
  intros (m & Hm & _). discriminate Hm.
Defined.

Lemma update_without_id_puts_to_collection_witness :
  exists req,
    issued (update unreachable plain_str 0 (world_of named)).1 = [req]
    /\ url req = "https://api.sase.paloaltonetworks.com/sse/config/v1/addresses".
Proof.
  destruct (update_without_id_puts_to_collection unreachable plain_str
              (world_of named) 0 address_class named eq_refl eq_refl eq_refl) as [Hc _].
  destruct (Hc eq_refl) as (req & Hi & _ & Hu).
  exists req. split; [exact Hi|exact Hu].
Defined.
